(** * Retiarii base execution engine: [nni/retiarii/execution/base.py]

    A shallow embedding of [BaseGraphData] and [BaseExecutionEngine] and the
    properties their specification states of them.

    Python objects that are shared by reference (the [Model] instances held
    in [_running_models], handed to listeners and mutated by the callbacks)
    live in an explicit object store; the engine's attributes, the logger
    output and the calls made on listeners are state threaded through a
    small state-and-exception monad in which, as in Python, the mutations
    made before an exception is raised stay in place. *)

From Stdlib Require Import ZArith Ascii String List.
From stdpp Require Import gmap strings list fin_maps functions.

Open Scope string_scope.
Open Scope list_scope.
Open Scope Z_scope.

(** ** Python values *)

(** The values that cross the engine untyped ([Any], [MetricData], the
    [dict] returned by [dump]).  Dictionaries are keyed by strings. *)
#[warnings="-register-all"]
Inductive PyVal : Type :=
| VNone
| VBool (b : bool)
| VInt (n : Z)
| VStr (s : string)
| VList (xs : list PyVal)
| VDict (d : gmap string PyVal).

(** [MetricData = NewType('MetricData', Any)]: passed through uninspected. *)
Definition MetricData : Type := PyVal.

(** ** Exceptions and the execution monad *)

(** A reference to a listener object registered with the engine. *)
Definition Listener : Type := nat.

(** A reference to a [Model] object. *)
Definition ModelRef : Type := nat.

#[global] Instance ModelRef_eq_dec : EqDecision ModelRef := Nat.eq_dec.

(** The three methods of [AbstractGraphListener] the engine calls, with
    their arguments. *)
Inductive Notification : Type :=
| on_training_end (model : ModelRef) (success : bool)
| on_intermediate_metric (model : ModelRef) (metrics : MetricData)
| on_metric (model : ModelRef) (metrics : MetricData).

(** The steps of [trial_execute_graph] that run code outside this file. *)
Inductive ExternalCall : Type :=
| import_trainer
| import_model
| construct_model
| construct_trainer
| trainer_fit.

Inductive Exn : Type :=
| KeyError_int (key : Z)          (* [self._running_models[trial_id]] *)
| KeyError_str (key : string)     (* [data['model_script']] and the like *)
| ListenerRaised (l : Listener) (n : Notification)
| TypeError                       (* [f.write] of something not a [str] *)
| UnicodeEncodeError              (* [f.write] of a text the encoding lacks *)
| ExternalRaised (c : ExternalCall)
| FileNotFoundError (name : string).

Inductive Result (A : Type) : Type :=
| Ok (a : A)
| Raise (e : Exn).
Arguments Ok {A} a.
Arguments Raise {A} e.

(** A computation over a state [S]: it returns or raises, and in both cases
    leaves a state behind. *)
Definition Py (S A : Type) : Type := S -> Result A * S.

#[global] Instance Py_ret {S} : MRet (Py S) :=
  fun A a s => (Ok a, s).

#[global] Instance Py_bind {S} : MBind (Py S) :=
  fun A B k c s =>
    match c s with
    | (Ok a, s') => k a s'
    | (Raise e, s') => (Raise e, s')
    end.

Definition raise {S A} (e : Exn) : Py S A :=
  fun s => (Raise e, s).

Definition gets {S A} (f : S -> A) : Py S A :=
  fun s => (Ok (f s), s).

Definition modify {S} (f : S -> S) : Py S unit :=
  fun s => (Ok tt, f s).

(** [for x in xs: body(x)] *)
Fixpoint for_each {S A} (body : A -> Py S unit) (xs : list A) : Py S unit :=
  match xs with
  | [] => mret tt
  | x :: xs' => body x ;; for_each body xs'
  end.

(** The state a computation leaves, whether it returned or raised. *)
Definition exec {S A} (c : Py S A) (s : S) : S := snd (c s).

(** The outcome of a computation. *)
Definition outcome {S A} (c : Py S A) (s : S) : Result A := fst (c s).

(** ** [BaseGraphData] *)

Module BaseGraphData.

(** The fields are as dynamically typed as [__init__] leaves them; a
    trial payload is the case [VStr], [VStr], [VDict]. *)
Record t : Type := mk {
  model_script : PyVal;
  training_module : PyVal;
  training_kwargs : PyVal
}.

Definition dump (self : t) : gmap string PyVal :=
  <["model_script" := model_script self]>
    (<["training_module" := training_module self]>
       (<["training_kwargs" := training_kwargs self]> ∅)).

(** [data[k]] on a [dict]. *)
Definition getitem (data : gmap string PyVal) (k : string) : Result PyVal :=
  match data !! k with
  | Some v => Ok v
  | None => Raise (KeyError_str k)
  end.

Definition load (data : gmap string PyVal) : Result t :=
  match getitem data "model_script" with
  | Raise e => Raise e
  | Ok ms =>
      match getitem data "training_module" with
      | Raise e => Raise e
      | Ok tm =>
          match getitem data "training_kwargs" with
          | Raise e => Raise e
          | Ok kw => Ok (mk ms tm kw)
          end
      end
  end.

(** The payload of a trial: a script, a module reference and keyword
    arguments. *)
Definition payload (script module : string) (kwargs : gmap string PyVal) : t :=
  mk (VStr script) (VStr module) (VDict kwargs).

End BaseGraphData.

(** ** The objects the engine works on *)

Inductive ModelStatus : Type :=
| Waiting
| Running
| Trained
| Failed.

Record TrainingConfig : Type := {
  module : string;
  kwargs : gmap string PyVal
}.

(** Modelled from the spec: the [Model] class of [nni/retiarii/graph.py],
    which is not part of this file.  It has a status, an ordered sequence of
    intermediate metrics, an optional final metric, and the training
    configuration that [submit_models] reads. *)
Record Model : Type := {
  status : ModelStatus;
  intermediate_metrics : list MetricData;
  metric : option MetricData;
  training_config : TrainingConfig
}.

Definition set_status (v : ModelStatus) (m : Model) : Model :=
  {| status := v;
     intermediate_metrics := intermediate_metrics m;
     metric := metric m;
     training_config := training_config m |}.

Definition append_intermediate_metric (v : MetricData) (m : Model) : Model :=
  {| status := status m;
     intermediate_metrics := intermediate_metrics m ++ [v];
     metric := metric m;
     training_config := training_config m |}.

Definition set_metric (v : MetricData) (m : Model) : Model :=
  {| status := status m;
     intermediate_metrics := intermediate_metrics m;
     metric := Some v;
     training_config := training_config m |}.

(** The bound methods [__init__] stores in the advisor's callback slots. *)
Inductive Callback : Type :=
| bound_send_trial_callback
| bound_request_trial_jobs_callback
| bound_trial_end_callback
| bound_intermediate_metric_callback
| bound_final_metric_callback.

(** The advisor object returned by [get_advisor()]: its five callback
    slots, and the payloads handed to it by [send_trial] so far. *)
Record Advisor : Type := {
  send_trial_callback : option Callback;
  request_trial_jobs_callback : option Callback;
  trial_end_callback : option Callback;
  intermediate_metric_callback : option Callback;
  final_metric_callback : option Callback;
  sent : list (gmap string PyVal)
}.

Inductive LogLevel : Type :=
| WARNING
| INFO.

(** One call on [_logger]: level, format string, arguments. *)
Record LogRecord : Type := {
  level : LogLevel;
  msg : string;
  args : list Z
}.

(** What the engine's methods read and write: the three attributes of the
    engine, the store of [Model] objects it holds references into, the
    advisor, and two write-only traces (logger output, calls made on
    listeners). *)
Record World : Type := {
  _listeners : list Listener;
  _running_models : gmap Z ModelRef;
  resources : Z;
  objects : ModelRef -> Model;
  advisor : Advisor;
  log : list LogRecord;
  notified : list (Listener * Notification)
}.

(** What the code outside this file decides. *)
Record Environment : Type := {
  (** whether a listener's method raises on a call *)
  listener_raises : Listener -> Notification -> bool;
  (** the identifier [send_trial] returns for the [k]-th payload the
      advisor is handed *)
  send_trial_id : nat -> Z;
  (** [codegen.model_to_pytorch_script] *)
  model_to_pytorch_script : Model -> string
}.

(** *** Attribute updates *)

Definition with_listeners (v : list Listener) (w : World) : World :=
  {| _listeners := v;
     _running_models := _running_models w;
     resources := resources w;
     objects := objects w;
     advisor := advisor w;
     log := log w;
     notified := notified w |}.

Definition with_running_models (v : gmap Z ModelRef) (w : World) : World :=
  {| _listeners := _listeners w;
     _running_models := v;
     resources := resources w;
     objects := objects w;
     advisor := advisor w;
     log := log w;
     notified := notified w |}.

Definition with_resources (v : Z) (w : World) : World :=
  {| _listeners := _listeners w;
     _running_models := _running_models w;
     resources := v;
     objects := objects w;
     advisor := advisor w;
     log := log w;
     notified := notified w |}.

Definition with_objects (v : ModelRef -> Model) (w : World) : World :=
  {| _listeners := _listeners w;
     _running_models := _running_models w;
     resources := resources w;
     objects := v;
     advisor := advisor w;
     log := log w;
     notified := notified w |}.

Definition with_advisor (v : Advisor) (w : World) : World :=
  {| _listeners := _listeners w;
     _running_models := _running_models w;
     resources := resources w;
     objects := objects w;
     advisor := v;
     log := log w;
     notified := notified w |}.

Definition with_log (v : list LogRecord) (w : World) : World :=
  {| _listeners := _listeners w;
     _running_models := _running_models w;
     resources := resources w;
     objects := objects w;
     advisor := advisor w;
     log := v;
     notified := notified w |}.

Definition with_notified (v : list (Listener * Notification)) (w : World) : World :=
  {| _listeners := _listeners w;
     _running_models := _running_models w;
     resources := resources w;
     objects := objects w;
     advisor := advisor w;
     log := log w;
     notified := v |}.

(** [model.attr = ...] on the object a reference points to; every holder of
    the reference sees the change. *)
Definition update_object (model : ModelRef) (f : Model -> Model) : Py World unit :=
  modify (fun w => with_objects (alter f model (objects w)) w).

Definition logger_warning (fmt : string) (xs : list Z) : Py World unit :=
  modify (fun w => with_log (log w ++ [{| level := WARNING; msg := fmt; args := xs |}]) w).

Definition logger_info (fmt : string) (xs : list Z) : Py World unit :=
  modify (fun w => with_log (log w ++ [{| level := INFO; msg := fmt; args := xs |}]) w).

(** [self._running_models[trial_id]] *)
Definition running_model (trial_id : Z) : Py World ModelRef :=
  fun w =>
    match _running_models w !! trial_id with
    | Some model => (Ok model, w)
    | None => (Raise (KeyError_int trial_id), w)
    end.

(** ** [BaseExecutionEngine] *)

Section BaseExecutionEngine.

Variable env : Environment.

(** Modelled from the spec: [send_trial] of [nni/retiarii/integration_api.py],
    which is not part of this file: it hands the serialized payload to the
    advisor and returns the identifier the advisor assigns to it. *)
Definition send_trial (data : gmap string PyVal) : Py World Z :=
  fun w =>
    let a := advisor w in
    (Ok (send_trial_id env (length (sent a))),
     with_advisor
       {| send_trial_callback := send_trial_callback a;
          request_trial_jobs_callback := request_trial_jobs_callback a;
          trial_end_callback := trial_end_callback a;
          intermediate_metric_callback := intermediate_metric_callback a;
          final_metric_callback := final_metric_callback a;
          sent := sent a ++ [data] |} w).

(** [listener.method(args)]: the call is made, and returns or raises. *)
Definition call_listener (n : Notification) (listener : Listener) : Py World unit :=
  modify (fun w => with_notified (notified w ++ [(listener, n)]) w) ;;
  if listener_raises env listener n
  then raise (ListenerRaised listener n)
  else mret tt.

(** The listeners a fan-out gets to: those up to the first one that
    raises, that one included. *)
Fixpoint reached (n : Notification) (listeners : list Listener) : list Listener :=
  match listeners with
  | [] => []
  | l :: ls => l :: (if listener_raises env l n then [] else reached n ls)
  end.

(** The calls a fan-out of [n] to [listeners] makes, in order. *)
Definition calls (n : Notification) (listeners : list Listener)
  : list (Listener * Notification) :=
  map (fun l => (l, n)) listeners.

Definition __init__ : Py World unit :=
  modify (with_listeners []) ;;
  modify (fun w =>
    with_advisor
      {| send_trial_callback := Some bound_send_trial_callback;
         request_trial_jobs_callback := Some bound_request_trial_jobs_callback;
         trial_end_callback := Some bound_trial_end_callback;
         intermediate_metric_callback := Some bound_intermediate_metric_callback;
         final_metric_callback := Some bound_final_metric_callback;
         sent := sent (advisor w) |} w) ;;
  modify (with_running_models ∅) ;;
  modify (with_resources 0).

(** The body of the loop of [submit_models]. *)
Definition submit_model (model : ModelRef) : Py World unit :=
  m ← gets (fun w => objects w model);
  let data :=
    BaseGraphData.payload (model_to_pytorch_script env m)
      (module (training_config m)) (kwargs (training_config m)) in
  trial_id ← send_trial (BaseGraphData.dump data);
  modify (fun w => with_running_models (<[trial_id := model]> (_running_models w)) w).

Definition submit_models (models : list ModelRef) : Py World unit :=
  for_each submit_model models.

Definition register_graph_listener (listener : Listener) : Py World unit :=
  modify (fun w => with_listeners (_listeners w ++ [listener]) w).

Definition _send_trial_callback (paramater : PyVal) : Py World unit :=
  r ← gets resources;
  (if bool_decide (r ≤ 0)%Z
   then logger_warning "There is no available resource, but trial is submitted." []
   else mret tt) ;;
  modify (fun w => with_resources (resources w - 1) w) ;;
  r' ← gets resources;
  logger_info "on_resource_used: %d" [r'].

Definition _request_trial_jobs_callback (num_trials : Z) : Py World unit :=
  modify (fun w => with_resources (resources w + num_trials) w) ;;
  r ← gets resources;
  logger_info "on_resource_available: %d" [r].

Definition _trial_end_callback (trial_id : Z) (success : bool) : Py World unit :=
  model ← running_model trial_id;
  (if success
   then update_object model (set_status Trained)
   else update_object model (set_status Failed)) ;;
  listeners ← gets _listeners;
  for_each (call_listener (on_training_end model success)) listeners.

Definition _intermediate_metric_callback (trial_id : Z) (metrics : MetricData) : Py World unit :=
  model ← running_model trial_id;
  update_object model (append_intermediate_metric metrics) ;;
  listeners ← gets _listeners;
  for_each (call_listener (on_intermediate_metric model metrics)) listeners.

Definition _final_metric_callback (trial_id : Z) (metrics : MetricData) : Py World unit :=
  model ← running_model trial_id;
  update_object model (set_metric metrics) ;;
  listeners ← gets _listeners;
  for_each (call_listener (on_metric model metrics)) listeners.

Definition query_available_resource : Py World Z :=
  gets resources.

(** *** Event sequences *)

(** The two events that change the resource counter. *)
Inductive ResourceEvent : Type :=
| grant (num_trials : Z)
| consume (paramater : PyVal).

Definition on_resource_event (e : ResourceEvent) : Py World unit :=
  match e with
  | grant n => _request_trial_jobs_callback n
  | consume p => _send_trial_callback p
  end.

Definition granted (e : ResourceEvent) : Z :=
  match e with
  | grant n => n
  | consume _ => 0
  end.

Definition consumed (e : ResourceEvent) : Z :=
  match e with
  | grant _ => 0
  | consume _ => 1
  end.

Definition sum_granted (es : list ResourceEvent) : Z :=
  foldr (fun e acc => granted e + acc) 0 es.

Definition count_consumed (es : list ResourceEvent) : Z :=
  foldr (fun e acc => consumed e + acc) 0 es.

(** Any call on the engine: its public methods and the five callbacks. *)
Inductive Call : Type :=
| call_submit_models (models : list ModelRef)
| call_register_graph_listener (listener : Listener)
| call_send_trial_callback (paramater : PyVal)
| call_request_trial_jobs_callback (num_trials : Z)
| call_trial_end_callback (trial_id : Z) (success : bool)
| call_intermediate_metric_callback (trial_id : Z) (metrics : MetricData)
| call_final_metric_callback (trial_id : Z) (metrics : MetricData)
| call_query_available_resource.

Definition run_call (c : Call) : Py World unit :=
  match c with
  | call_submit_models models => submit_models models
  | call_register_graph_listener l => register_graph_listener l
  | call_send_trial_callback p => _send_trial_callback p
  | call_request_trial_jobs_callback n => _request_trial_jobs_callback n
  | call_trial_end_callback i s => _trial_end_callback i s
  | call_intermediate_metric_callback i x => _intermediate_metric_callback i x
  | call_final_metric_callback i x => _final_metric_callback i x
  | call_query_available_resource => query_available_resource ;; mret tt
  end.

(** The state after a sequence of calls, each made whether or not the one
    before it raised. *)
Definition after_calls (cs : list Call) (w : World) : World :=
  fold_left (fun w c => exec (run_call c) w) cs w.

(** The states an engine can be in: constructed, then called. *)
Definition reachable (w : World) : Prop :=
  exists w0 cs, w = after_calls cs (exec __init__ w0).

(** The advisor assigns a different identifier to each submission. *)
Definition distinct_identifiers : Prop :=
  forall i j : nat, send_trial_id env i = send_trial_id env j -> i = j.

(** Every key of the registry is an identifier the advisor has assigned. *)
Definition registry_issued (w : World) : Prop :=
  forall k model, _running_models w !! k = Some model ->
    exists i : nat, (i < length (sent (advisor w)))%nat /\ send_trial_id env i = k.

(** The payload [submit_models] sends for a model. *)
Definition payload_of (m : Model) : gmap string PyVal :=
  BaseGraphData.dump
    (BaseGraphData.payload (model_to_pytorch_script env m)
       (module (training_config m)) (kwargs (training_config m))).

(** What the engine and the advisor hold in [w'], after [submit_models],
    given what they held in [w], before. *)
Record submitted (models : list ModelRef) (w w' : World) : Prop := {
  submitted_sent :
    sent (advisor w') = sent (advisor w) ++ map (fun model => payload_of (objects w model)) models;
  submitted_new :
    forall (i : nat) model, models !! i = Some model ->
      _running_models w' !! send_trial_id env (length (sent (advisor w)) + i) = Some model;
  submitted_old :
    forall k, (forall i : nat, (i < length models)%nat ->
                 k <> send_trial_id env (length (sent (advisor w)) + i)) ->
      _running_models w' !! k = _running_models w !! k;
  submitted_size :
    size (_running_models w') = (size (_running_models w) + length models)%nat;
  submitted_issued : registry_issued w';
  submitted_listeners : _listeners w' = _listeners w;
  submitted_resources : resources w' = resources w;
  submitted_objects : objects w' = objects w;
  submitted_notified : notified w' = notified w;
  submitted_log : log w' = log w
}.

End BaseExecutionEngine.

(** ** [trial_execute_graph] *)

(** The working directory of the trial process: file name to content. *)
Abbreviation Files := (gmap string string) (only parsing).

(** What the trial process finds around it. *)
Record TrialEnvironment : Type := {
  (** what [receive_trial_parameters()] returns *)
  receive_trial_parameters : gmap string PyVal;
  (** the index [random.choice] draws on its [k]-th call *)
  random_choice : nat -> nat;
  (** whether the encoding [open] writes in has every character of a text *)
  encodes : string -> bool;
  (** what a step that runs imported code does: it reads and writes the
      directory as it likes, and returns or raises what it likes *)
  imported : ExternalCall -> Py (gmap string string) unit
}.

(** [string.ascii_uppercase + string.digits] *)
Definition ascii_uppercase_digits : string :=
  "ABCDEFGHIJKLMNOPQRSTUVWXYZ0123456789".

Section TrialExecuteGraph.

Variable tenv : TrialEnvironment.

Definition choice (k : nat) : ascii :=
  let alphabet := list_ascii_of_string ascii_uppercase_digits in
  nth (random_choice tenv k mod length alphabet)%nat alphabet "A"%char.

Definition random_str : string :=
  string_of_list_ascii (map choice (seq 0 6)).

Definition file_name : string :=
  String.append "_generated_model_" (String.append random_str ".py").

(** [open(name, 'w')]: the file exists and is empty. *)
Definition open_w (name : string) : Py Files unit :=
  modify (fun fs : Files => <[name := EmptyString]> fs).

(** [f.write(v)] on the file just opened: the text is encoded as a whole
    before any of it reaches the file. *)
Definition write (name : string) (v : PyVal) : Py Files unit :=
  match v with
  | VStr s =>
      if encodes tenv s
      then modify (fun fs : Files => <[name := s]> fs)
      else raise UnicodeEncodeError
  | _ => raise TypeError
  end.

Definition os_remove (name : string) : Py Files unit :=
  fun fs : Files =>
    match fs !! name with
    | Some _ => (Ok tt, delete name fs)
    | None => (Raise (FileNotFoundError name), fs)
    end.

(** A step that runs code of the trainer or of the generated module. *)
Definition external (c : ExternalCall) : Py Files unit :=
  imported tenv c.

(** [**v] beside the keyword [model=...] in a call: [v] has to be a
    mapping, and may not bring a key [model] of its own. *)
Definition keyword_arguments (v : PyVal) : Py Files unit :=
  match v with
  | VDict d =>
      match d !! "model" with
      | Some _ => raise TypeError
      | None => mret tt
      end
  | _ => raise TypeError
  end.

Definition lift_result {A} (r : Result A) : Py Files A :=
  fun fs => (r, fs).

(** Lines 111 to 114: the two imports, then the call of the trainer class,
    whose arguments are evaluated first ([model_cls()], then the merge of
    the keyword arguments), then [fit]. *)
Definition train (graph_data : BaseGraphData.t) : Py Files unit :=
  external import_trainer ;;
  external import_model ;;
  external construct_model ;;
  keyword_arguments (BaseGraphData.training_kwargs graph_data) ;;
  external construct_trainer ;;
  external trainer_fit.

Definition trial_execute_graph : Py Files unit :=
  graph_data ← lift_result (BaseGraphData.load (receive_trial_parameters tenv));
  open_w file_name ;;
  write file_name (BaseGraphData.model_script graph_data) ;;
  train graph_data ;;
  os_remove file_name.

End TrialExecuteGraph.

(** A computation leaves the file [name] as it is. *)
Definition preserves (name : string) (c : Py (gmap string string) unit) : Prop :=
  forall fs : Files, exec c fs !! name = fs !! name.

(** A computation returns, whatever the directory holds. *)
Definition returns (c : Py (gmap string string) unit) : Prop :=
  forall fs : Files, outcome c fs = Ok tt.

(** Where CPython 3.8 caches the bytecode of the module
    [_generated_model_AAAAAA]. *)
Definition bytecode_cache : string :=
  "__pycache__/_generated_model_AAAAAA.cpython-38.pyc".

(** Imported code for the script [class _model: pass] and a trainer class
    [trainer.Trainer] that takes a model: the import of the generated
    module leaves its bytecode cache behind, the model and the trainer are
    constructed, and [fit] raises or returns as [fit_raises] says. *)
Definition imported_code (fit_raises : bool) (c : ExternalCall) : Py (gmap string string) unit :=
  match c with
  | import_model => modify (fun fs : Files => <[bytecode_cache := "(bytecode)"]> fs)
  | trainer_fit => if fit_raises then raise (ExternalRaised trainer_fit) else mret tt
  | _ => mret tt
  end.

(** A trial whose payload is well formed, whose script defines a class
    [_model], and whose trainer raises in [fit]: every draw of
    [random.choice] is index 0. *)
Definition failing_trial : TrialEnvironment :=
  {| receive_trial_parameters :=
       BaseGraphData.dump (BaseGraphData.payload "class _model: pass" "trainer.Trainer" ∅);
     random_choice := fun _ => 0%nat;
     encodes := fun _ => true;
     imported := imported_code true |}.

(** The same trial with a trainer that returns. *)
Definition passing_trial : TrialEnvironment :=
  {| receive_trial_parameters := receive_trial_parameters failing_trial;
     random_choice := random_choice failing_trial;
     encodes := encodes failing_trial;
     imported := imported_code false |}.

(** ** Concrete instances *)

Definition sample_model : Model :=
  {| status := Waiting;
     intermediate_metrics := [];
     metric := None;
     training_config := {| module := "trainer.Trainer"; kwargs := ∅ |} |}.

(** An environment in which no listener raises and the advisor numbers
    the submissions 0, 1, 2, ... *)
Definition quiet : Environment :=
  {| listener_raises := fun _ _ => false;
     send_trial_id := Z.of_nat;
     model_to_pytorch_script := fun _ => "_model = None" |}.

(** The world before any engine is constructed. *)
Definition blank_world : World :=
  {| _listeners := [];
     _running_models := ∅;
     resources := 0;
     objects := fun _ => sample_model;
     advisor := {| send_trial_callback := None;
                   request_trial_jobs_callback := None;
                   trial_end_callback := None;
                   intermediate_metric_callback := None;
                   final_metric_callback := None;
                   sent := [] |};
     log := [];
     notified := [] |}.

(** An engine with listeners 1 and 2 registered in that order and model 7
    submitted, which the advisor has numbered 0. *)
Definition engine_with_trial : World :=
  after_calls quiet
    [call_register_graph_listener 1%nat;
     call_register_graph_listener 2%nat;
     call_submit_models [7%nat]]
    (exec __init__ blank_world).

(** An environment in which listener 1 raises on every call. *)
Definition noisy : Environment :=
  {| listener_raises := fun l _ => bool_decide (l = 1%nat);
     send_trial_id := send_trial_id quiet;
     model_to_pytorch_script := model_to_pytorch_script quiet |}.

(** An advisor that hands out the same identifier every time. *)
Definition stuck : Environment :=
  {| listener_raises := listener_raises quiet;
     send_trial_id := fun _ => 0;
     model_to_pytorch_script := model_to_pytorch_script quiet |}.

(** ** Sequences of calls and of trial events *)

(** The keys [load] reads, in the order it reads them. *)
Definition graph_data_keys : list string :=
  ["model_script"; "training_module"; "training_kwargs"].

(** What a call adds to the resource counter. *)
Definition ledger_change_of (c : Call) : Z :=
  match c with
  | call_request_trial_jobs_callback n => n
  | call_send_trial_callback _ => -1
  | _ => 0
  end.

Definition ledger_change (cs : list Call) : Z :=
  foldr (fun c acc => ledger_change_of c + acc) 0 cs.

(** The listeners a sequence of calls registers, in order. *)
Definition registered_by (cs : list Call) : list Listener :=
  flat_map (fun c => match c with
                     | call_register_graph_listener l => [l]
                     | _ => []
                     end) cs.

(** The models a sequence of calls submits, in order. *)
Definition submitted_by (cs : list Call) : list ModelRef :=
  flat_map (fun c => match c with
                     | call_submit_models models => models
                     | _ => []
                     end) cs.

(** The advisor's five slots hold the engine's five callbacks. *)
Definition advisor_wired (a : Advisor) : Prop :=
  send_trial_callback a = Some bound_send_trial_callback
  /\ request_trial_jobs_callback a = Some bound_request_trial_jobs_callback
  /\ trial_end_callback a = Some bound_trial_end_callback
  /\ intermediate_metric_callback a = Some bound_intermediate_metric_callback
  /\ final_metric_callback a = Some bound_final_metric_callback.

(** The three events that name a trial. *)
Inductive TrialEvent : Type :=
| trial_end (trial_id : Z) (success : bool)
| intermediate_metric (trial_id : Z) (metrics : MetricData)
| final_metric (trial_id : Z) (metrics : MetricData).

Definition trial_of (ev : TrialEvent) : Z :=
  match ev with
  | trial_end i _ => i
  | intermediate_metric i _ => i
  | final_metric i _ => i
  end.

Definition on_trial_event (env : Environment) (ev : TrialEvent) : Py World unit :=
  match ev with
  | trial_end i success => _trial_end_callback env i success
  | intermediate_metric i x => _intermediate_metric_callback env i x
  | final_metric i x => _final_metric_callback env i x
  end.

(** What the handler of an event writes into the model. *)
Definition update_of (ev : TrialEvent) : Model -> Model :=
  match ev with
  | trial_end _ success => set_status (if success then Trained else Failed)
  | intermediate_metric _ x => append_intermediate_metric x
  | final_metric _ x => set_metric x
  end.

(** What the handler of an event calls on each listener. *)
Definition notification_of (ev : TrialEvent) (model : ModelRef) : Notification :=
  match ev with
  | trial_end _ success => on_training_end model success
  | intermediate_metric _ x => on_intermediate_metric model x
  | final_metric _ x => on_metric model x
  end.

(** How far a model can have moved from [m] to [m'] under the engine. *)
Definition moved_status (m m' : Model) : Prop :=
  status m' = status m \/ status m' = Trained \/ status m' = Failed.

Definition moved_metrics (m m' : Model) : Prop :=
  (exists more, intermediate_metrics m' = intermediate_metrics m ++ more)
  /\ (is_Some (metric m) -> is_Some (metric m')).


(** The trial process of a model the engine has submitted. *)
Definition trial_for (env : Environment) (m : Model) (draws : nat -> nat)
    (enc : string -> bool) (code : ExternalCall -> Py (gmap string string) unit)
  : TrialEnvironment :=
  {| receive_trial_parameters := payload_of env m;
     random_choice := draws;
     encodes := enc;
     imported := code |}.

(** A trial that receives parameters without [training_kwargs]. *)
Definition trial_missing_kwargs : TrialEnvironment :=
  {| receive_trial_parameters :=
       delete "training_kwargs" (receive_trial_parameters failing_trial);
     random_choice := random_choice failing_trial;
     encodes := encodes failing_trial;
     imported := imported_code false |}.


(** [quiet] with a code generator that writes a class [_model]. *)
Definition generating : Environment :=
  {| listener_raises := listener_raises quiet;
     send_trial_id := send_trial_id quiet;
     model_to_pytorch_script := fun _ => "class _model: pass" |}.

(** A model whose training configuration has a keyword [model] of its
    own. *)
Definition model_with_model_keyword : Model :=
  {| status := Waiting;
     intermediate_metrics := [];
     metric := None;
     training_config :=
       {| module := "trainer.Trainer"; kwargs := {["model" := VInt 1]} |} |}.

(** [engine_with_trial] after model 8 has been submitted twice: the advisor
    has numbered the two submissions 1 and 2. *)
Definition engine_with_duplicate : World :=
  exec (submit_models quiet [8%nat; 8%nat]) engine_with_trial.

(** * Properties *)

(** ** The payload round trip *)

Lemma load_dump_any (x : BaseGraphData.t) :
  BaseGraphData.load (BaseGraphData.dump x) = Ok x.
Proof.
  destruct x as [ms tm kw].
  unfold BaseGraphData.load, BaseGraphData.getitem, BaseGraphData.dump; cbn.
  rewrite lookup_insert_eq.
  rewrite lookup_insert_ne by discriminate.
  rewrite lookup_insert_eq.
  do 2 rewrite lookup_insert_ne by discriminate.
  rewrite lookup_insert_eq.
  reflexivity.
Qed.

(** C7: for every trial payload, whatever its script (a string, of one line
    or many), its training module reference and its keyword arguments (the
    empty mapping included), [load (dump x)] returns, and what it returns has
    the three fields of [x]. *)
Theorem load_dump_roundtrip (script training_module : string) (kwargs : gmap string PyVal) :
  let x := BaseGraphData.payload script training_module kwargs in
  exists y,
    BaseGraphData.load (BaseGraphData.dump x) = Ok y
    /\ BaseGraphData.model_script y = VStr script
    /\ BaseGraphData.training_module y = VStr training_module
    /\ BaseGraphData.training_kwargs y = VDict kwargs
    /\ y = x.
Proof.
  intros x. exists x. rewrite load_dump_any. repeat split.
Qed.

(** ** The resource counter *)

(** Unfolds the monad and the primitive operations on the world. *)
Ltac py_unfold :=
  unfold logger_warning, logger_info, update_object, running_model;
  unfold mbind, mret, Py_bind, Py_ret, gets, modify, raise;
  cbn.

Lemma send_trial_callback_positive (p : PyVal) (w : World) :
  0 < resources w ->
  _send_trial_callback p w =
    (Ok tt,
     with_log (log w ++ [{| level := INFO; msg := "on_resource_used: %d";
                            args := [resources w - 1] |}])
       (with_resources (resources w - 1) w)).
Proof.
  intros H. unfold _send_trial_callback. py_unfold.
  rewrite bool_decide_eq_false_2 by lia. reflexivity.
Qed.

Lemma send_trial_callback_exhausted (p : PyVal) (w : World) :
  resources w <= 0 ->
  _send_trial_callback p w =
    (Ok tt,
     with_log
       (log w
        ++ [{| level := WARNING;
               msg := "There is no available resource, but trial is submitted.";
               args := [] |};
            {| level := INFO; msg := "on_resource_used: %d";
               args := [resources w - 1] |}])
       (with_resources (resources w - 1) w)).
Proof.
  intros H. unfold _send_trial_callback. py_unfold.
  rewrite bool_decide_eq_true_2 by lia.
  cbn. unfold with_log, with_resources; cbn. rewrite <- app_assoc. reflexivity.
Qed.

Lemma send_trial_callback_resources (p : PyVal) (w : World) :
  outcome (_send_trial_callback p) w = Ok tt
  /\ resources (exec (_send_trial_callback p) w) = resources w - 1.
Proof.
  unfold outcome, exec.
  destruct (Z_lt_le_dec 0 (resources w)) as [H|H].
  - rewrite send_trial_callback_positive by exact H. split; reflexivity.
  - rewrite send_trial_callback_exhausted by exact H. split; reflexivity.
Qed.

Lemma request_trial_jobs_callback_resources (n : Z) (w : World) :
  outcome (_request_trial_jobs_callback n) w = Ok tt
  /\ resources (exec (_request_trial_jobs_callback n) w) = resources w + n.
Proof. split; reflexivity. Qed.

Lemma on_resource_event_resources (e : ResourceEvent) (w : World) :
  outcome (on_resource_event e) w = Ok tt
  /\ resources (exec (on_resource_event e) w)
     = resources w + granted e - consumed e.
Proof.
  destruct e as [n|p]; cbn [on_resource_event granted consumed].
  - destruct (request_trial_jobs_callback_resources n w) as [-> ->].
    split; [reflexivity | lia].
  - destruct (send_trial_callback_resources p w) as [-> ->].
    split; [reflexivity | lia].
Qed.

(** The loop over a list of events, unfolded once. *)
Lemma for_each_cons_ok {S A} (body : A -> Py S unit) (x : A) (xs : list A) (s : S) :
  outcome (body x) s = Ok tt ->
  for_each body (x :: xs) s = for_each body xs (exec (body x) s).
Proof.
  unfold outcome, exec. cbn [for_each]. unfold mbind, Py_bind.
  destruct (body x s) as [[[]|e] s']; cbn; [reflexivity | discriminate].
Qed.

Lemma resource_events_from (es : list ResourceEvent) (w : World) :
  outcome (for_each on_resource_event es) w = Ok tt
  /\ resources (exec (for_each on_resource_event es) w)
     = resources w + sum_granted es - count_consumed es.
Proof.
  revert w. induction es as [|e es IH]; intros w.
  - cbn. split; [reflexivity | unfold exec; cbn; lia].
  - destruct (on_resource_event_resources e w) as [Hok Hres].
    unfold outcome, exec in *.
    rewrite for_each_cons_ok by exact Hok.
    destruct (IH (exec (on_resource_event e) w)) as [IHok IHres].
    unfold outcome, exec in *.
    split; [exact IHok|].
    rewrite IHres, Hres. cbn [sum_granted count_consumed foldr].
    fold (sum_granted es) (count_consumed es). lia.
Qed.

Lemma init_resources (w0 : World) : resources (exec __init__ w0) = 0.
Proof. reflexivity. Qed.

(** C1: construct an engine, then deliver any finite sequence of grant and
    consume events in any order: every handler returns, and
    [query_available_resource()] then returns the sum of the amounts granted
    minus the number of consume events, below zero included. *)
Theorem query_available_resource_ledger (w0 : World) (es : list ResourceEvent) :
  let w := exec (for_each on_resource_event es) (exec __init__ w0) in
  outcome (for_each on_resource_event es) (exec __init__ w0) = Ok tt
  /\ query_available_resource w = (Ok (sum_granted es - count_consumed es), w).
Proof.
  intros w.
  destruct (resource_events_from es (exec __init__ w0)) as [Hok Hres].
  split; [exact Hok|].
  unfold query_available_resource, gets. subst w. rewrite Hres.
  rewrite init_resources.
  replace (0 + sum_granted es - count_consumed es)
    with (sum_granted es - count_consumed es) by lia.
  reflexivity.
Qed.

(** C4: when a consume event finds the counter at [v <= 0], the handler
    returns rather than raises, logs a warning, and decrements all the
    same: the counter is [v - 1], and the listeners, the registry, the
    models and the advisor are as they were, with no listener called. *)
Theorem send_trial_callback_no_resource (p : PyVal) (w : World) :
  resources w <= 0 ->
  let w' := exec (_send_trial_callback p) w in
  outcome (_send_trial_callback p) w = Ok tt
  /\ resources w' = resources w - 1
  /\ (exists r, log w' = log w ++ r
                /\ In {| level := WARNING;
                         msg := "There is no available resource, but trial is submitted.";
                         args := [] |} r)
  /\ _listeners w' = _listeners w
  /\ _running_models w' = _running_models w
  /\ objects w' = objects w
  /\ advisor w' = advisor w
  /\ notified w' = notified w.
Proof.
  intros H w'. subst w'. unfold outcome, exec.
  rewrite send_trial_callback_exhausted by exact H. cbn.
  repeat split.
  eexists. split; [reflexivity|]. left. reflexivity.
Qed.

Lemma send_trial_callback_no_resource_witness :
  resources blank_world <= 0
  /\ outcome (_send_trial_callback VNone) blank_world = Ok tt
  /\ resources (exec (_send_trial_callback VNone) blank_world) = -1.
Proof.
  assert (H : resources blank_world <= 0) by (cbn; lia).
  destruct (send_trial_callback_no_resource VNone blank_world H) as (Hok & Hres & _).
  split; [exact H|]. split; [exact Hok | exact Hres].
Defined.

(** C10: the consume handler never reads its argument: from any state, two
    calls that differ only in the argument return the same and leave the
    same state, logger output included. *)
Theorem send_trial_callback_ignores_parameter (w : World) (p1 p2 : PyVal) :
  _send_trial_callback p1 w = _send_trial_callback p2 w
  /\ resources (exec (_send_trial_callback p1) w) = resources w - 1
  /\ resources (exec (_send_trial_callback p2) w) = resources w - 1.
Proof.
  split; [reflexivity|].
  split; apply send_trial_callback_resources.
Qed.

(** ** Fan-out to the listeners *)

Section Listeners.

Variable env : Environment.

Lemma with_notified_app (w : World) (xs ys : list (Listener * Notification)) :
  with_notified (notified (with_notified (notified w ++ xs) w) ++ ys)
    (with_notified (notified w ++ xs) w)
  = with_notified (notified w ++ xs ++ ys) w.
Proof. unfold with_notified; cbn. rewrite <- app_assoc. reflexivity. Qed.

Lemma for_each_cons {S A} (body : A -> Py S unit) (x : A) (xs : list A) (s : S) :
  for_each body (x :: xs) s
  = match body x s with
    | (Ok _, s') => for_each body xs s'
    | (Raise e, s') => (Raise e, s')
    end.
Proof. reflexivity. Qed.

Lemma call_listener_eq (n : Notification) (l : Listener) (w : World) :
  call_listener env n l w
  = (if listener_raises env l n then Raise (ListenerRaised l n) else Ok tt,
     with_notified (notified w ++ [(l, n)]) w).
Proof.
  unfold call_listener. py_unfold. destruct (listener_raises env l n); reflexivity.
Qed.

(** The state a fan-out leaves: the calls on the listeners reached, and
    nothing else. *)
Lemma fan_out_exec (n : Notification) (ls : list Listener) (w : World) :
  exec (for_each (call_listener env n) ls) w
  = with_notified (notified w ++ calls n (reached env n ls)) w.
Proof.
  revert w. induction ls as [|l ls IH]; intros w.
  - unfold exec; cbn. rewrite app_nil_r. destruct w; reflexivity.
  - unfold exec in *. rewrite for_each_cons, call_listener_eq.
    cbn [reached].
    destruct (listener_raises env l n); cbn [snd].
    + reflexivity.
    + rewrite IH. unfold calls. cbn [map].
      change ((l, n) :: map (fun l0 => (l0, n)) (reached env n ls))
        with ([(l, n)] ++ map (fun l0 => (l0, n)) (reached env n ls)).
      apply with_notified_app.
Qed.

Lemma fan_out_returns (n : Notification) (ls : list Listener) (w : World) :
  (forall l, In l ls -> listener_raises env l n = false) ->
  outcome (for_each (call_listener env n) ls) w = Ok tt
  /\ reached env n ls = ls.
Proof.
  revert w. induction ls as [|l ls IH]; intros w H.
  - split; reflexivity.
  - unfold outcome in *. rewrite for_each_cons, call_listener_eq.
    cbn [reached].
    rewrite (H l) by (left; reflexivity).
    destruct (IH (with_notified (notified w ++ [(l, n)]) w)) as [Hok Hr].
    { intros l' Hl'. apply H. right. exact Hl'. }
    split; [exact Hok | rewrite Hr; reflexivity].
Qed.

Lemma fan_out_returned (n : Notification) (ls : list Listener) (w : World) :
  outcome (for_each (call_listener env n) ls) w = Ok tt ->
  (forall l, In l ls -> listener_raises env l n = false)
  /\ reached env n ls = ls.
Proof.
  revert w. induction ls as [|l ls IH]; intros w H.
  - split; [intros l [] | reflexivity].
  - unfold outcome in *. rewrite for_each_cons, call_listener_eq in H.
    cbn [reached].
    destruct (listener_raises env l n) eqn:E; [discriminate H|].
    destruct (IH _ H) as [Hall Hr].
    split.
    + intros l' [<-|Hl']; [exact E | apply Hall; exact Hl'].
    + rewrite Hr. reflexivity.
Qed.

(** *** The callbacks on a registered identifier *)

Lemma trial_end_callback_eq (trial_id : Z) (success : bool) (model : ModelRef) (w : World) :
  _running_models w !! trial_id = Some model ->
  _trial_end_callback env trial_id success w
  = for_each (call_listener env (on_training_end model success)) (_listeners w)
      (with_objects
         (alter (set_status (if success then Trained else Failed)) model (objects w)) w).
Proof.
  intros H. unfold _trial_end_callback. py_unfold. rewrite H.
  destruct success; reflexivity.
Qed.

Lemma intermediate_metric_callback_eq (trial_id : Z) (x : MetricData) (model : ModelRef) (w : World) :
  _running_models w !! trial_id = Some model ->
  _intermediate_metric_callback env trial_id x w
  = for_each (call_listener env (on_intermediate_metric model x)) (_listeners w)
      (with_objects (alter (append_intermediate_metric x) model (objects w)) w).
Proof.
  intros H. unfold _intermediate_metric_callback. py_unfold. rewrite H.
  reflexivity.
Qed.

Lemma final_metric_callback_eq (trial_id : Z) (x : MetricData) (model : ModelRef) (w : World) :
  _running_models w !! trial_id = Some model ->
  _final_metric_callback env trial_id x w
  = for_each (call_listener env (on_metric model x)) (_listeners w)
      (with_objects (alter (set_metric x) model (objects w)) w).
Proof.
  intros H. unfold _final_metric_callback. py_unfold. rewrite H.
  reflexivity.
Qed.

(** The state a fan-out leaves after an update of the model store. *)
Lemma update_then_fan_out (f : Model -> Model) (model : ModelRef) (n : Notification) (w : World) :
  exec (for_each (call_listener env n) (_listeners w))
    (with_objects (alter f model (objects w)) w)
  = with_notified (notified w ++ calls n (reached env n (_listeners w)))
      (with_objects (alter f model (objects w)) w).
Proof.
  change (_listeners w) with (_listeners (with_objects (alter f model (objects w)) w)) at 1.
  rewrite fan_out_exec. reflexivity.
Qed.

(** C2: on a registered identifier, a trial-end event sets the model's
    status to [Trained] when [success] is true and to [Failed] when it is
    false, whatever the listeners do.  When no registered listener raises
    the handler returns, and whenever the handler returns, the calls it has
    made by then are [on_training_end(model, success)] on each entry of the
    listener list, once per entry, in registration order. *)
Theorem trial_end_callback_registered
  (trial_id : Z) (success : bool) (model : ModelRef) (w : World) :
  _running_models w !! trial_id = Some model ->
  let n := on_training_end model success in
  let w' := exec (_trial_end_callback env trial_id success) w in
  let r := outcome (_trial_end_callback env trial_id success) w in
  status (objects w' model) = (if success then Trained else Failed)
  /\ ((forall l, In l (_listeners w) -> listener_raises env l n = false) -> r = Ok tt)
  /\ (r = Ok tt -> notified w' = notified w ++ map (fun l => (l, n)) (_listeners w)).
Proof.
  intros H n w' r. subst n w' r. unfold exec, outcome.
  rewrite (trial_end_callback_eq _ _ _ _ H).
  pose proof (update_then_fan_out
                (set_status (if success then Trained else Failed)) model
                (on_training_end model success) w) as E.
  unfold exec in E. rewrite E. clear E.
  cbn [objects with_notified with_objects notified].
  split; [|split].
  - rewrite fn_lookup_alter. destruct success; reflexivity.
  - intros Hall. apply fan_out_returns. exact Hall.
  - intros Hok. apply fan_out_returned in Hok. destruct Hok as [_ ->].
    reflexivity.
Qed.

(** *** The callbacks on an identifier that is not registered *)

Lemma trial_end_callback_unknown (trial_id : Z) (success : bool) (w : World) :
  _running_models w !! trial_id = None ->
  _trial_end_callback env trial_id success w = (Raise (KeyError_int trial_id), w).
Proof.
  intros H. unfold _trial_end_callback. py_unfold. rewrite H. reflexivity.
Qed.

Lemma intermediate_metric_callback_unknown (trial_id : Z) (metrics : MetricData) (w : World) :
  _running_models w !! trial_id = None ->
  _intermediate_metric_callback env trial_id metrics w = (Raise (KeyError_int trial_id), w).
Proof.
  intros H. unfold _intermediate_metric_callback. py_unfold. rewrite H. reflexivity.
Qed.

Lemma final_metric_callback_unknown (trial_id : Z) (metrics : MetricData) (w : World) :
  _running_models w !! trial_id = None ->
  _final_metric_callback env trial_id metrics w = (Raise (KeyError_int trial_id), w).
Proof.
  intros H. unfold _final_metric_callback. py_unfold. rewrite H. reflexivity.
Qed.

(** C3: on an identifier absent from the registry, the trial-end, the
    intermediate-metric and the final-metric handler each raise
    [KeyError] on that identifier, and leave the whole state as it was: the
    counter, the registry, every model, the listener list; no listener is
    called. *)
Theorem callbacks_unknown_trial
  (trial_id : Z) (success : bool) (metrics : MetricData) (w : World) :
  _running_models w !! trial_id = None ->
  _trial_end_callback env trial_id success w = (Raise (KeyError_int trial_id), w)
  /\ _intermediate_metric_callback env trial_id metrics w = (Raise (KeyError_int trial_id), w)
  /\ _final_metric_callback env trial_id metrics w = (Raise (KeyError_int trial_id), w).
Proof.
  intros H. split; [|split].
  - apply trial_end_callback_unknown. exact H.
  - apply intermediate_metric_callback_unknown. exact H.
  - apply final_metric_callback_unknown. exact H.
Qed.

Lemma intermediate_metric_callback_exec
  (trial_id : Z) (x : MetricData) (model : ModelRef) (w : World) :
  _running_models w !! trial_id = Some model ->
  exec (_intermediate_metric_callback env trial_id x) w
  = with_notified
      (notified w ++ calls (on_intermediate_metric model x)
                       (reached env (on_intermediate_metric model x) (_listeners w)))
      (with_objects (alter (append_intermediate_metric x) model (objects w)) w).
Proof.
  intros H. unfold exec. rewrite (intermediate_metric_callback_eq _ _ _ _ H).
  apply update_then_fan_out.
Qed.

Lemma final_metric_callback_exec
  (trial_id : Z) (x : MetricData) (model : ModelRef) (w : World) :
  _running_models w !! trial_id = Some model ->
  exec (_final_metric_callback env trial_id x) w
  = with_notified
      (notified w ++ calls (on_metric model x) (reached env (on_metric model x) (_listeners w)))
      (with_objects (alter (set_metric x) model (objects w)) w).
Proof.
  intros H. unfold exec. rewrite (final_metric_callback_eq _ _ _ _ H).
  apply update_then_fan_out.
Qed.

Lemma trial_end_callback_exec
  (trial_id : Z) (success : bool) (model : ModelRef) (w : World) :
  _running_models w !! trial_id = Some model ->
  exec (_trial_end_callback env trial_id success) w
  = with_notified
      (notified w ++ calls (on_training_end model success)
                       (reached env (on_training_end model success) (_listeners w)))
      (with_objects
         (alter (set_status (if success then Trained else Failed)) model (objects w)) w).
Proof.
  intros H. unfold exec. rewrite (trial_end_callback_eq _ _ _ _ H).
  apply update_then_fan_out.
Qed.

(** A run of final-metric events on one identifier. *)
Lemma final_metric_events_registry (trial_id : Z) (model : ModelRef) (xs : list MetricData) (w : World) :
  _running_models w !! trial_id = Some model ->
  _running_models (after_calls env (map (call_final_metric_callback trial_id) xs) w) !! trial_id
  = Some model.
Proof.
  revert w. induction xs as [|x xs IH]; intros w H; [exact H|].
  cbn [map after_calls fold_left]. apply IH.
  cbn [run_call]. rewrite (final_metric_callback_exec _ _ _ _ H). exact H.
Qed.

(** C5: on a registered identifier, an intermediate-metric event puts the
    metric at the end of the model's sequence of intermediate metrics and
    keeps the metrics already there; a final-metric event makes the metric
    the model's final metric; after any run of final-metric events on the
    identifier the final metric is that of the last event.  Neither
    handler changes another model or another field, and all this holds
    whatever the listeners do. *)
Theorem metric_callbacks_registered
  (trial_id : Z) (model : ModelRef) (x : MetricData) (xs : list MetricData) (w : World) :
  _running_models w !! trial_id = Some model ->
  let wi := exec (_intermediate_metric_callback env trial_id x) w in
  let wf := exec (_final_metric_callback env trial_id x) w in
  let ws := after_calls env (map (call_final_metric_callback trial_id) (xs ++ [x])) w in
  intermediate_metrics (objects wi model) = intermediate_metrics (objects w model) ++ [x]
  /\ objects wi = alter (append_intermediate_metric x) model (objects w)
  /\ metric (objects wf model) = Some x
  /\ objects wf = alter (set_metric x) model (objects w)
  /\ metric (objects ws model) = Some x.
Proof.
  intros H wi wf ws. subst wi wf ws.
  rewrite (intermediate_metric_callback_exec _ _ _ _ H).
  rewrite (final_metric_callback_exec _ _ _ _ H).
  cbn [objects with_notified with_objects].
  rewrite !fn_lookup_alter. cbn [intermediate_metrics metric append_intermediate_metric set_metric].
  repeat split.
  unfold after_calls. rewrite map_app, fold_left_app. cbn [map fold_left run_call].
  fold (after_calls env (map (call_final_metric_callback trial_id) xs) w).
  rewrite (final_metric_callback_exec trial_id x model)
    by (apply final_metric_events_registry; exact H).
  cbn [objects with_notified with_objects].
  rewrite fn_lookup_alter. reflexivity.
Qed.

End Listeners.

(** ** Submission *)

Section Submission.

Variable env : Environment.

Lemma submit_model_eq (model : ModelRef) (w : World) :
  submit_model env model w
  = (Ok tt,
     with_running_models
       (<[send_trial_id env (length (sent (advisor w))) := model]> (_running_models w))
       (with_advisor
          {| send_trial_callback := send_trial_callback (advisor w);
             request_trial_jobs_callback := request_trial_jobs_callback (advisor w);
             trial_end_callback := trial_end_callback (advisor w);
             intermediate_metric_callback := intermediate_metric_callback (advisor w);
             final_metric_callback := final_metric_callback (advisor w);
             sent := sent (advisor w) ++ [payload_of env (objects w model)] |} w)).
Proof. reflexivity. Qed.

Lemma fresh_identifier (w : World) :
  distinct_identifiers env -> registry_issued env w ->
  forall i : nat, _running_models w !! send_trial_id env (length (sent (advisor w)) + i) = None.
Proof.
  intros Hinj Hiss i.
  destruct (_running_models w !! _) as [model|] eqn:E; [|reflexivity].
  destruct (Hiss _ _ E) as (j & Hj & Hid). apply Hinj in Hid. lia.
Qed.

Lemma submit_models_submitted (models : list ModelRef) (w : World) :
  distinct_identifiers env -> registry_issued env w ->
  outcome (submit_models env models) w = Ok tt
  /\ submitted env models w (exec (submit_models env models) w).
Proof.
  intros Hinj. unfold submit_models. revert w.
  induction models as [|model models IH]; intros w Hiss.
  - split; [reflexivity|]. unfold exec; cbn.
    constructor; cbn; try reflexivity.
    + rewrite app_nil_r. reflexivity.
    + intros i m Hm. rewrite lookup_nil in Hm. discriminate.
    + lia.
    + exact Hiss.
  - unfold outcome, exec. rewrite for_each_cons, submit_model_eq.
    set (first := length (sent (advisor w))).
    set (w1 := with_running_models _ _).
    assert (Hlen1 : length (sent (advisor w1)) = S first).
    { subst w1. cbn. rewrite length_app. cbn. lia. }
    assert (Hiss1 : registry_issued env w1).
    { intros k m Hk. subst w1. cbn in Hk. rewrite Hlen1.
      destruct (decide (send_trial_id env first = k)) as [<-|Hne].
      - exists first. split; [lia | reflexivity].
      - rewrite lookup_insert_ne in Hk by exact Hne.
        destruct (Hiss _ _ Hk) as (j & Hj & Hid). exists j. fold first in Hj.
        split; [lia | exact Hid]. }
    destruct (IH w1 Hiss1) as [Hok Hsub]. unfold outcome, exec in Hok, Hsub.
    split; [exact Hok|].
    destruct Hsub as [Hsent Hnew Hold Hsize Hiss' Hl Hr Ho Hn Hlog].
    rewrite Hlen1 in Hnew, Hold.
    constructor; try change (length (sent (advisor w))) with first.
    + rewrite Hsent. subst w1. cbn. rewrite <- app_assoc. reflexivity.
    + intros [|i] m Hm; cbn in Hm.
      * injection Hm as ->. rewrite Hold.
        -- subst w1. cbn. rewrite Nat.add_0_r. apply lookup_insert_eq.
        -- intros j _ Heq. apply Hinj in Heq. lia.
      * replace (first + S i)%nat with (S first + i)%nat by lia.
        apply Hnew. exact Hm.
    + intros k Hk. rewrite Hold.
      * subst w1. cbn. apply lookup_insert_ne.
        rewrite <- (Nat.add_0_r first). intros Heq. apply (Hk 0%nat); [cbn; lia|].
        symmetry. exact Heq.
      * intros i Hi. replace (S first + i)%nat with (first + S i)%nat by lia.
        apply Hk. cbn. lia.
    + rewrite Hsize. subst w1. cbn.
      rewrite map_size_insert_None.
      * lia.
      * rewrite <- (Nat.add_0_r first). apply fresh_identifier; assumption.
    + exact Hiss'.
    + rewrite Hl. reflexivity.
    + rewrite Hr. reflexivity.
    + rewrite Ho. reflexivity.
    + rewrite Hn. reflexivity.
    + rewrite Hlog. reflexivity.
Qed.

(** The callbacks and [register_graph_listener] leave the registry and the
    advisor alone. *)
Lemma run_call_frame (c : Call) (w : World) :
  (forall models, c <> call_submit_models models) ->
  _running_models (exec (run_call env c) w) = _running_models w
  /\ advisor (exec (run_call env c) w) = advisor w.
Proof.
  intros Hc. destruct c as [models|l|p|n|i b|i x|i x|]; cbn [run_call].
  - destruct (Hc models). reflexivity.
  - split; reflexivity.
  - unfold exec. destruct (Z_lt_le_dec 0 (resources w)) as [H|H].
    + rewrite send_trial_callback_positive by exact H. split; reflexivity.
    + rewrite send_trial_callback_exhausted by exact H. split; reflexivity.
  - split; reflexivity.
  - destruct (_running_models w !! i) as [model|] eqn:E.
    + rewrite (trial_end_callback_exec env _ _ _ _ E). split; reflexivity.
    + unfold exec.
      rewrite (trial_end_callback_unknown env i b w E). split; reflexivity.
  - destruct (_running_models w !! i) as [model|] eqn:E.
    + rewrite (intermediate_metric_callback_exec env _ _ _ _ E). split; reflexivity.
    + unfold exec.
      rewrite (intermediate_metric_callback_unknown env i x w E). split; reflexivity.
  - destruct (_running_models w !! i) as [model|] eqn:E.
    + rewrite (final_metric_callback_exec env _ _ _ _ E). split; reflexivity.
    + unfold exec.
      rewrite (final_metric_callback_unknown env i x w E). split; reflexivity.
  - split; reflexivity.
Qed.

Lemma run_call_issued (c : Call) (w : World) :
  distinct_identifiers env -> registry_issued env w ->
  registry_issued env (exec (run_call env c) w).
Proof.
  intros Hinj Hiss.
  destruct (match c with call_submit_models _ => true | _ => false end) eqn:E.
  - destruct c as [models| | | | | | |]; try discriminate E. cbn [run_call].
    apply (submit_models_submitted models w Hinj Hiss).
  - destruct (run_call_frame c w) as [Hreg Hadv].
    { intros models ->. discriminate E. }
    intros k model Hk. rewrite Hreg in Hk. rewrite Hadv. exact (Hiss k model Hk).
Qed.

Lemma after_calls_issued (cs : list Call) (w : World) :
  distinct_identifiers env -> registry_issued env w ->
  registry_issued env (after_calls env cs w).
Proof.
  intros Hinj. revert w. induction cs as [|c cs IH]; intros w Hiss; [exact Hiss|].
  cbn [after_calls fold_left]. apply IH. apply run_call_issued; assumption.
Qed.

(** In every state of an engine, the keys of the registry are identifiers
    the advisor has assigned. *)
Lemma reachable_registry_issued (w : World) :
  distinct_identifiers env -> reachable env w -> registry_issued env w.
Proof.
  intros Hinj (w0 & cs & ->). apply after_calls_issued; [exact Hinj|].
  intros k model Hk.
  change (_running_models (exec __init__ w0)) with (∅ : gmap Z ModelRef) in Hk.
  rewrite lookup_empty in Hk. discriminate.
Qed.

(** C8: let the advisor assign a different identifier to each submission.
    Then in any state of an engine, [submit_models] on a list of [N] models
    returns, and leaves a registry with [N] more entries: the identifier the
    advisor assigned to the [i]-th model of the list maps to that very
    model object, every entry that was there is still there with the model
    it had, and no other key has been added. *)
Theorem submit_models_registry (models : list ModelRef) (w : World) :
  distinct_identifiers env ->
  reachable env w ->
  let w' := exec (submit_models env models) w in
  let first := length (sent (advisor w)) in
  outcome (submit_models env models) w = Ok tt
  /\ sent (advisor w')
     = sent (advisor w) ++ map (fun model => payload_of env (objects w model)) models
  /\ size (_running_models w') = (size (_running_models w) + length models)%nat
  /\ (forall (i : nat) model, models !! i = Some model ->
        _running_models w' !! send_trial_id env (first + i) = Some model)
  /\ (forall k model, _running_models w !! k = Some model ->
        _running_models w' !! k = Some model)
  /\ (forall k, _running_models w !! k = None ->
        (forall i : nat, (i < length models)%nat -> k <> send_trial_id env (first + i)) ->
        _running_models w' !! k = None).
Proof.
  intros Hinj Hreach w' first.
  pose proof (reachable_registry_issued w Hinj Hreach) as Hiss.
  destruct (submit_models_submitted models w Hinj Hiss) as [Hok Hsub].
  fold w' in Hsub. destruct Hsub as [Hsent Hnew Hold Hsize _ _ _ _ _ _].
  fold first in Hnew, Hold.
  split; [exact Hok|]. split; [exact Hsent|]. split; [exact Hsize|].
  split; [exact Hnew|]. split.
  - intros k model Hk. rewrite Hold; [exact Hk|].
    intros i _ ->. subst first.
    rewrite (fresh_identifier w Hinj Hiss i) in Hk. discriminate.
  - intros k Hk Hne. rewrite Hold; [exact Hk | exact Hne].
Qed.

End Submission.

(** ** The trial process *)

Lemma outcome_seq_ok {S} (c k : Py S unit) (s : S) :
  outcome c s = Ok tt -> outcome (c ;; k) s = outcome k (exec c s).
Proof.
  unfold outcome, exec, mbind, Py_bind.
  destruct (c s) as [[[]|e] s']; cbn; [reflexivity | discriminate].
Qed.


Lemma preserves_seq (name : string) (c k : Py (gmap string string) unit) :
  preserves name c -> preserves name k -> preserves name (c ;; k).
Proof.
  intros Hc Hk fs. specialize (Hc fs). unfold exec, mbind, Py_bind in *.
  destruct (c fs) as [[[]|e] fs1]; cbn [snd] in *.
  - rewrite <- Hc. apply Hk.
  - exact Hc.
Qed.

Lemma keyword_arguments_exec (v : PyVal) (fs : Files) :
  exec (keyword_arguments v) fs = fs.
Proof.
  destruct v as [| | | | |d]; try reflexivity.
  unfold keyword_arguments. destruct (d !! "model"); reflexivity.
Qed.

Lemma keyword_arguments_ok (d : gmap string PyVal) (fs : Files) :
  d !! "model" = None -> outcome (keyword_arguments (VDict d)) fs = Ok tt.
Proof. intros H. unfold keyword_arguments. rewrite H. reflexivity. Qed.


Section TrialProcess.

Variable tenv : TrialEnvironment.
Variable script : string.
Variable training_module training_kwargs : PyVal.

Let graph_data : BaseGraphData.t :=
  BaseGraphData.mk (VStr script) training_module training_kwargs.

Hypothesis received :
  BaseGraphData.load (receive_trial_parameters tenv) = Ok graph_data.

Hypothesis encoded : encodes tenv script = true.

(** Once the script is written, what is left is [train] and the removal. *)
Lemma trial_execute_graph_written (fs : Files) :
  trial_execute_graph tenv fs
  = (train tenv graph_data ;; os_remove (file_name tenv)) (<[file_name tenv := script]> fs).
Proof.
  unfold trial_execute_graph, lift_result, open_w, write.
  unfold mbind at 1 2 3, Py_bind at 1 2 3, modify.
  rewrite received. cbn [BaseGraphData.model_script graph_data]. rewrite encoded.
  rewrite insert_insert_eq. reflexivity.
Qed.

Lemma train_preserves (name : string) :
  (forall c, preserves name (imported tenv c)) ->
  preserves name (train tenv graph_data).
Proof.
  intros H. unfold train, external.
  repeat (apply preserves_seq; [first [apply H | intros fs; rewrite keyword_arguments_exec; reflexivity]|]).
  apply H.
Qed.

(** When the imported code leaves the generated file alone, the trial ends
    as [train] ends, and the file is there at the end exactly when [train]
    raised. *)
Lemma trial_execute_graph_file (fs : Files) :
  (forall c, preserves (file_name tenv) (imported tenv c)) ->
  outcome (trial_execute_graph tenv) fs
  = outcome (train tenv graph_data) (<[file_name tenv := script]> fs)
  /\ exec (trial_execute_graph tenv) fs !! file_name tenv
     = match outcome (train tenv graph_data) (<[file_name tenv := script]> fs) with
       | Ok _ => None
       | Raise _ => Some script
       end.
Proof.
  intros Hpres.
  pose proof (train_preserves (file_name tenv) Hpres (<[file_name tenv := script]> fs)) as Hf.
  rewrite lookup_insert_eq in Hf.
  unfold outcome, exec in *. rewrite trial_execute_graph_written.
  unfold mbind, Py_bind.
  destruct (train tenv graph_data (<[file_name tenv := script]> fs)) as [[[]|e] fs2];
    cbn [fst snd] in *.
  - unfold os_remove. rewrite Hf. cbn [fst snd]. split; [reflexivity|].
    apply lookup_delete_eq.
  - split; [reflexivity | exact Hf].
Qed.


(** [train] raises what [fit] raises when all before [fit] returns. *)
Lemma train_fit_raises (d : gmap string PyVal) (e : Exn) (fs : Files) :
  training_kwargs = VDict d -> d !! "model" = None ->
  (forall c, c <> trainer_fit -> returns (imported tenv c)) ->
  (forall fs', outcome (imported tenv trainer_fit) fs' = Raise e) ->
  outcome (train tenv graph_data) fs = Raise e.
Proof.
  intros Hkw Hd Hret Hfit. unfold train, external.
  cbn [BaseGraphData.training_kwargs graph_data]. rewrite Hkw.
  do 3 (rewrite outcome_seq_ok by (apply Hret; discriminate)).
  rewrite outcome_seq_ok by (apply keyword_arguments_ok; exact Hd).
  rewrite outcome_seq_ok by (apply Hret; discriminate).
  apply Hfit.
Qed.


End TrialProcess.

Lemma imported_code_preserves (fit_raises : bool) (c : ExternalCall) :
  preserves "_generated_model_AAAAAA.py" (imported_code fit_raises c).
Proof.
  intros fs. destruct c, fit_raises; try reflexivity;
    unfold exec, imported_code, modify; cbn [snd];
    apply lookup_insert_ne; discriminate.
Defined.

Lemma imported_code_returns (c : ExternalCall) :
  c <> trainer_fit -> returns (imported_code true c).
Proof.
  intros Hc fs. destruct c; try reflexivity. destruct Hc. reflexivity.
Defined.

(** C6, on the path where [fit] raises: the script has been written, the
    imports and the two constructions have returned, [fit] raises [e].
    Then [e] leaves [trial_execute_graph] before [os.remove] is reached, and
    the generated file is still in the directory, with the script in it. *)
Theorem trial_execute_graph_failure_leaves_artifact
    (tenv : TrialEnvironment) (script : string) (training_module : PyVal)
    (kwargs : gmap string PyVal) (e : Exn) (fs : Files) :
  BaseGraphData.load (receive_trial_parameters tenv)
  = Ok (BaseGraphData.mk (VStr script) training_module (VDict kwargs)) ->
  encodes tenv script = true ->
  kwargs !! "model" = None ->
  (forall c, preserves (file_name tenv) (imported tenv c)) ->
  (forall c, c <> trainer_fit -> returns (imported tenv c)) ->
  (forall fs', outcome (imported tenv trainer_fit) fs' = Raise e) ->
  outcome (trial_execute_graph tenv) fs = Raise e
  /\ exec (trial_execute_graph tenv) fs !! file_name tenv = Some script.
Proof.
  intros Hload Henc Hkw Hpres Hret Hfit.
  destruct (trial_execute_graph_file tenv script training_module (VDict kwargs)
              Hload Henc fs Hpres) as [Hout Hfile].
  rewrite (train_fit_raises tenv script training_module (VDict kwargs) kwargs e _
             eq_refl Hkw Hret Hfit) in Hout, Hfile.
  split; [exact Hout | exact Hfile].
Qed.

Lemma trial_execute_graph_failure_leaves_artifact_witness :
  outcome (trial_execute_graph failing_trial) ∅ = Raise (ExternalRaised trainer_fit)
  /\ exec (trial_execute_graph failing_trial) ∅ !! "_generated_model_AAAAAA.py"
     = Some "class _model: pass".
Proof.
  apply (trial_execute_graph_failure_leaves_artifact failing_trial
           "class _model: pass" (VStr "trainer.Trainer") ∅ (ExternalRaised trainer_fit) ∅).
  - apply load_dump_any.
  - reflexivity.
  - apply lookup_empty.
  - intros c. apply (imported_code_preserves true c).
  - intros c Hc. apply (imported_code_returns c Hc).
  - intros fs'. reflexivity.
Defined.

(** ** Instances of the theorems above *)

Lemma trial_end_callback_registered_witness :
  _running_models engine_with_trial !! 0 = Some 7%nat
  /\ status (objects (exec (_trial_end_callback quiet 0 true) engine_with_trial) 7%nat) = Trained
  /\ outcome (_trial_end_callback quiet 0 true) engine_with_trial = Ok tt
  /\ notified (exec (_trial_end_callback quiet 0 true) engine_with_trial)
     = [(1%nat, on_training_end 7%nat true); (2%nat, on_training_end 7%nat true)].
Proof.
  assert (H : _running_models engine_with_trial !! 0 = Some 7%nat) by reflexivity.
  destruct (trial_end_callback_registered quiet 0 true 7%nat engine_with_trial H)
    as (Hstatus & Hreturns & Hcalls).
  split; [exact H|]. split; [exact Hstatus|].
  assert (Hok : outcome (_trial_end_callback quiet 0 true) engine_with_trial = Ok tt)
    by (apply Hreturns; reflexivity).
  split; [exact Hok | exact (Hcalls Hok)].
Defined.

Lemma callbacks_unknown_trial_witness :
  _running_models engine_with_trial !! 5 = None
  /\ _trial_end_callback quiet 5 true engine_with_trial
     = (Raise (KeyError_int 5), engine_with_trial).
Proof.
  assert (H : _running_models engine_with_trial !! 5 = None) by reflexivity.
  split; [exact H|].
  exact (proj1 (callbacks_unknown_trial quiet 5 true VNone engine_with_trial H)).
Defined.

Lemma metric_callbacks_registered_witness :
  _running_models engine_with_trial !! 0 = Some 7%nat
  /\ intermediate_metrics
       (objects (exec (_intermediate_metric_callback quiet 0 (VInt 3)) engine_with_trial) 7%nat)
     = [VInt 3]
  /\ metric
       (objects
          (after_calls quiet
             (map (call_final_metric_callback 0) ([VInt 1; VInt 2] ++ [VInt 3]))
             engine_with_trial) 7%nat)
     = Some (VInt 3).
Proof.
  assert (H : _running_models engine_with_trial !! 0 = Some 7%nat) by reflexivity.
  destruct (metric_callbacks_registered quiet 0 7%nat (VInt 3) [VInt 1; VInt 2]
              engine_with_trial H) as (Hi & _ & _ & _ & Hs).
  split; [exact H|]. split; [exact Hi | exact Hs].
Defined.

Lemma quiet_distinct_identifiers : distinct_identifiers quiet.
Proof. intros i j H. cbn in H. lia. Defined.

Lemma engine_with_trial_reachable : reachable quiet engine_with_trial.
Proof. eexists blank_world, _. reflexivity. Defined.

Lemma submit_models_registry_witness :
  distinct_identifiers quiet
  /\ reachable quiet engine_with_trial
  /\ size (_running_models (exec (submit_models quiet [8%nat; 8%nat; 9%nat]) engine_with_trial))
     = (size (_running_models engine_with_trial) + 3)%nat.
Proof.
  split; [exact quiet_distinct_identifiers|].
  split; [exact engine_with_trial_reachable|].
  exact (proj1 (proj2 (proj2
    (submit_models_registry quiet [8%nat; 8%nat; 9%nat] engine_with_trial
       quiet_distinct_identifiers engine_with_trial_reachable)))).
Defined.

(** ** Scenarios *)

(** Submit one model, grant two units, consume two: none is left. *)
Example ledger_scenario :
  let w := after_calls quiet
             [call_submit_models [7%nat];
              call_request_trial_jobs_callback 2;
              call_send_trial_callback VNone;
              call_send_trial_callback VNone]
             (exec __init__ blank_world) in
  query_available_resource w = (Ok 0, w)
  /\ outcome (_send_trial_callback VNone) w = Ok tt
  /\ outcome query_available_resource (exec (_send_trial_callback VNone) w) = Ok (-1)
  /\ map level (log (exec (_send_trial_callback VNone) w)) = [INFO; INFO; INFO; WARNING; INFO].
Proof. repeat split. Qed.

(** A listener that raises ends the fan-out: the status is set, the
    exception reaches the caller, and the listeners registered after it are
    not called. *)
Example raising_listener_scenario :
  outcome (_trial_end_callback noisy 0 false) engine_with_trial
  = Raise (ListenerRaised 1%nat (on_training_end 7%nat false))
  /\ status (objects (exec (_trial_end_callback noisy 0 false) engine_with_trial) 7%nat) = Failed
  /\ notified (exec (_trial_end_callback noisy 0 false) engine_with_trial)
     = [(1%nat, on_training_end 7%nat false)].
Proof. repeat split. Qed.

(** The same model submitted twice is registered twice, under the two
    identifiers, and both entries refer to the one object. *)
Example duplicate_submission_scenario :
  let w := exec (submit_models quiet [8%nat; 8%nat]) engine_with_trial in
  _running_models w !! 1 = Some 8%nat
  /\ _running_models w !! 2 = Some 8%nat
  /\ size (_running_models w) = 3%nat
  /\ status (objects (exec (_trial_end_callback quiet 1 true) w) 8%nat) = Trained
  /\ _running_models (exec (_trial_end_callback quiet 1 true) w) !! 2 = Some 8%nat.
Proof. repeat split. Qed.

(** When the advisor repeats an identifier, the later submission takes
    the entry of the earlier one. *)
Example repeated_identifier_scenario :
  let w := exec (submit_models stuck [8%nat; 9%nat]) (exec __init__ blank_world) in
  size (_running_models w) = 1%nat
  /\ _running_models w !! 0 = Some 9%nat.
Proof. repeat split. Qed.

(** * Further properties *)

(** ** What [load] accepts *)

Lemma load_eq (data : gmap string PyVal) :
  BaseGraphData.load data
  = match data !! "model_script" with
    | None => Raise (KeyError_str "model_script")
    | Some ms =>
        match data !! "training_module" with
        | None => Raise (KeyError_str "training_module")
        | Some tm =>
            match data !! "training_kwargs" with
            | None => Raise (KeyError_str "training_kwargs")
            | Some kw => Ok (BaseGraphData.mk ms tm kw)
            end
        end
    end.
Proof.
  unfold BaseGraphData.load, BaseGraphData.getitem.
  destruct (data !! "model_script"); [|reflexivity].
  destruct (data !! "training_module"); [|reflexivity].
  destruct (data !! "training_kwargs"); reflexivity.
Qed.

Lemma dump_lookup (x : BaseGraphData.t) (k : string) :
  BaseGraphData.dump x !! k
  = if decide (k = "model_script") then Some (BaseGraphData.model_script x)
    else if decide (k = "training_module") then Some (BaseGraphData.training_module x)
    else if decide (k = "training_kwargs") then Some (BaseGraphData.training_kwargs x)
    else None.
Proof.
  unfold BaseGraphData.dump.
  destruct (decide (k = "model_script")) as [->|H1]; [apply lookup_insert_eq|].
  rewrite lookup_insert_ne by congruence.
  destruct (decide (k = "training_module")) as [->|H2]; [apply lookup_insert_eq|].
  rewrite lookup_insert_ne by congruence.
  destruct (decide (k = "training_kwargs")) as [->|H3]; [apply lookup_insert_eq|].
  rewrite lookup_insert_ne by congruence.
  apply lookup_empty.
Qed.

(** X1: [load] reads the three keys and nothing else: two dictionaries that
    agree on [model_script], [training_module] and [training_kwargs] load
    to the same result, whatever else they hold. *)
Theorem load_reads_three_keys (d1 d2 : gmap string PyVal) :
  (forall k, In k graph_data_keys -> d1 !! k = d2 !! k) ->
  BaseGraphData.load d1 = BaseGraphData.load d2.
Proof.
  intros H. rewrite !load_eq.
  rewrite (H "model_script") by (cbn; auto).
  rewrite (H "training_module") by (cbn; auto).
  rewrite (H "training_kwargs") by (cbn; auto).
  reflexivity.
Qed.

Lemma load_reads_three_keys_witness :
  let d := BaseGraphData.dump (BaseGraphData.payload "_model = None" "trainer.Trainer" ∅) in
  BaseGraphData.load (<["comment" := VInt 1]> d) = BaseGraphData.load d.
Proof.
  intros d. apply (load_reads_three_keys (<["comment" := VInt 1]> d) d).
  intros k Hk. apply lookup_insert_ne.
  cbn in Hk. destruct Hk as [<-|[<-|[<-|[]]]]; discriminate.
Defined.

(** X2: what [load] returns dumps back to the part of the dictionary it
    read: on the three keys [dump] has the values the dictionary had, and it
    has no other key.  So a dictionary with just the three keys is restored
    exactly. *)
Theorem dump_load_restricts (data : gmap string PyVal) (x : BaseGraphData.t) :
  BaseGraphData.load data = Ok x ->
  (forall k, BaseGraphData.dump x !! k
             = if bool_decide (In k graph_data_keys) then data !! k else None)
  /\ ((forall k, is_Some (data !! k) -> In k graph_data_keys) ->
      BaseGraphData.dump x = data).
Proof.
  intros H. rewrite load_eq in H.
  destruct (data !! "model_script") as [ms|] eqn:E1; [|discriminate].
  destruct (data !! "training_module") as [tm|] eqn:E2; [|discriminate].
  destruct (data !! "training_kwargs") as [kw|] eqn:E3; [|discriminate].
  injection H as <-.
  assert (Hk : forall k, BaseGraphData.dump (BaseGraphData.mk ms tm kw) !! k
             = if bool_decide (In k graph_data_keys) then data !! k else None).
  { intros k. rewrite dump_lookup. cbn [BaseGraphData.model_script
      BaseGraphData.training_module BaseGraphData.training_kwargs].
    destruct (decide (k = "model_script")) as [->|H1].
    { rewrite bool_decide_eq_true_2 by (cbn; auto). symmetry. exact E1. }
    destruct (decide (k = "training_module")) as [->|H2].
    { rewrite bool_decide_eq_true_2 by (cbn; auto). symmetry. exact E2. }
    destruct (decide (k = "training_kwargs")) as [->|H3].
    { rewrite bool_decide_eq_true_2 by (cbn; auto). symmetry. exact E3. }
    rewrite bool_decide_eq_false_2; [reflexivity|].
    cbn. intros [?|[?|[?|[]]]]; congruence. }
  split; [exact Hk|].
  intros Hdom. apply map_eq. intros k. rewrite Hk.
  destruct (bool_decide (In k graph_data_keys)) eqn:Ek; [reflexivity|].
  apply bool_decide_eq_false in Ek.
  destruct (data !! k) eqn:E; [|reflexivity].
  destruct Ek. apply Hdom. rewrite E. eauto.
Qed.

Lemma dump_load_restricts_witness :
  let data := <["comment" := VInt 1]>
                (BaseGraphData.dump (BaseGraphData.payload "_model = None" "trainer.Trainer" ∅)) in
  exists x, BaseGraphData.load data = Ok x
            /\ BaseGraphData.dump x !! "comment" = None
            /\ BaseGraphData.dump x !! "model_script" = data !! "model_script".
Proof.
  intros data. eexists.
  assert (H : BaseGraphData.load data
              = Ok (BaseGraphData.payload "_model = None" "trainer.Trainer" ∅))
    by reflexivity.
  split; [exact H|].
  destruct (dump_load_restricts data _ H) as [Hk _].
  split; [exact (Hk "comment") | exact (Hk "model_script")].
Defined.

(** X3: [load] either returns, or raises [KeyError] on one of the three
    keys: the first, in the order [model_script], [training_module],
    [training_kwargs], that the dictionary lacks.  It raises nothing else. *)
Theorem load_returns_or_key_error (data : gmap string PyVal) :
  (exists x, BaseGraphData.load data = Ok x
             /\ Forall (fun k => is_Some (data !! k)) graph_data_keys)
  \/ (exists before k after,
        graph_data_keys = before ++ k :: after
        /\ Forall (fun k' => is_Some (data !! k')) before
        /\ data !! k = None
        /\ BaseGraphData.load data = Raise (KeyError_str k)).
Proof.
  rewrite load_eq. unfold graph_data_keys.
  destruct (data !! "model_script") as [ms|] eqn:E1.
  - destruct (data !! "training_module") as [tm|] eqn:E2.
    + destruct (data !! "training_kwargs") as [kw|] eqn:E3.
      * left. eexists. split; [reflexivity|].
        repeat constructor; rewrite ?E1, ?E2, ?E3; eauto.
      * right. exists ["model_script"; "training_module"], "training_kwargs", [].
        split; [reflexivity|]. split; [|split; [exact E3 | reflexivity]].
        repeat constructor; rewrite ?E1, ?E2; eauto.
    + right. exists ["model_script"], "training_module", ["training_kwargs"].
      split; [reflexivity|]. split; [|split; [exact E2 | reflexivity]].
      repeat constructor; rewrite ?E1; eauto.
  - right. exists [], "model_script", ["training_module"; "training_kwargs"].
    split; [reflexivity|]. split; [constructor|]. split; [exact E1 | reflexivity].
Qed.

(** ** What a call leaves alone *)

Section Frames.

Variable env : Environment.

(** [submit_models] returns, hands the advisor one payload per model, and
    touches nothing but the registry and the advisor's record of payloads. *)
Lemma submit_models_frame (models : list ModelRef) (w : World) :
  let w' := exec (submit_models env models) w in
  outcome (submit_models env models) w = Ok tt
  /\ _listeners w' = _listeners w
  /\ resources w' = resources w
  /\ objects w' = objects w
  /\ log w' = log w
  /\ notified w' = notified w
  /\ (advisor_wired (advisor w) -> advisor_wired (advisor w'))
  /\ sent (advisor w')
     = sent (advisor w) ++ map (fun model => payload_of env (objects w model)) models
  /\ (forall k, is_Some (_running_models w !! k) -> is_Some (_running_models w' !! k)).
Proof.
  unfold submit_models. revert w.
  induction models as [|model models IH]; intros w; cbn zeta.
  - unfold outcome, exec; cbn. rewrite app_nil_r.
    do 6 (split; [reflexivity|]). split; [tauto|]. split; [reflexivity | auto].
  - unfold outcome, exec. rewrite for_each_cons, submit_model_eq.
    match goal with
    | |- context [for_each _ models ?w1] => set (w1' := w1)
    end.
    specialize (IH w1'). cbn zeta in IH. unfold outcome, exec in IH.
    destruct IH as (Hok & Hl & Hr & Ho & Hlog & Hn & Hwired & Hsent & Hkeys).
    split; [exact Hok|]. split; [rewrite Hl; reflexivity|].
    split; [rewrite Hr; reflexivity|]. split; [rewrite Ho; reflexivity|].
    split; [rewrite Hlog; reflexivity|]. split; [rewrite Hn; reflexivity|].
    split; [|split].
    + intros Hw. apply Hwired. exact Hw.
    + rewrite Hsent. subst w1'. cbn. rewrite <- app_assoc. reflexivity.
    + intros k Hk. apply Hkeys. subst w1'. cbn.
      destruct (decide (send_trial_id env (length (sent (advisor w))) = k)) as [<-|Hne].
      * rewrite lookup_insert_eq. eauto.
      * rewrite lookup_insert_ne by exact Hne. exact Hk.
Qed.

(** *** The three handlers of trial events, as one *)

Lemma on_trial_event_unknown (ev : TrialEvent) (w : World) :
  _running_models w !! trial_of ev = None ->
  on_trial_event env ev w = (Raise (KeyError_int (trial_of ev)), w).
Proof.
  intros H. destruct ev as [i b|i x|i x]; cbn [on_trial_event trial_of] in *.
  - apply trial_end_callback_unknown. exact H.
  - apply intermediate_metric_callback_unknown. exact H.
  - apply final_metric_callback_unknown. exact H.
Qed.

Lemma on_trial_event_eq (ev : TrialEvent) (model : ModelRef) (w : World) :
  _running_models w !! trial_of ev = Some model ->
  on_trial_event env ev w
  = for_each (call_listener env (notification_of ev model)) (_listeners w)
      (with_objects (alter (update_of ev) model (objects w)) w).
Proof.
  intros H. destruct ev as [i b|i x|i x];
    cbn [on_trial_event trial_of notification_of update_of] in *.
  - apply trial_end_callback_eq. exact H.
  - apply intermediate_metric_callback_eq. exact H.
  - apply final_metric_callback_eq. exact H.
Qed.

Lemma on_trial_event_exec (ev : TrialEvent) (model : ModelRef) (w : World) :
  _running_models w !! trial_of ev = Some model ->
  exec (on_trial_event env ev) w
  = with_notified
      (notified w ++ calls (notification_of ev model)
                       (reached env (notification_of ev model) (_listeners w)))
      (with_objects (alter (update_of ev) model (objects w)) w).
Proof.
  intros H. unfold exec. rewrite (on_trial_event_eq _ _ _ H).
  apply update_then_fan_out.
Qed.

(** Whether a fan-out returns depends on the listeners alone. *)
Lemma fan_out_outcome_any (n : Notification) (ls : list Listener) (w1 w2 : World) :
  outcome (for_each (call_listener env n) ls) w1
  = outcome (for_each (call_listener env n) ls) w2.
Proof.
  unfold outcome. revert w1 w2. induction ls as [|l ls IH]; intros w1 w2; [reflexivity|].
  rewrite !for_each_cons, !call_listener_eq.
  destruct (listener_raises env l n); [reflexivity|]. apply IH.
Qed.

Lemma on_trial_event_outcome (ev : TrialEvent) (model : ModelRef) (w : World) :
  _running_models w !! trial_of ev = Some model ->
  outcome (on_trial_event env ev) w
  = outcome (for_each (call_listener env (notification_of ev model)) (_listeners w)) w.
Proof.
  intros H. unfold outcome at 1. rewrite (on_trial_event_eq _ _ _ H).
  apply fan_out_outcome_any.
Qed.

(** Every call other than [submit_models] is a trial event on a registered
    identifier, or leaves the models as they are. *)
Lemma run_call_objects (c : Call) (w : World) :
  objects (exec (run_call env c) w) = objects w
  \/ exists ev model,
       _running_models w !! trial_of ev = Some model
       /\ objects (exec (run_call env c) w) = alter (update_of ev) model (objects w).
Proof.
  destruct c as [models|l|p|n|i b|i x|i x|]; cbn [run_call].
  - left. apply submit_models_frame.
  - left. reflexivity.
  - left. unfold exec. destruct (Z_lt_le_dec 0 (resources w)) as [H|H].
    + rewrite send_trial_callback_positive by exact H. reflexivity.
    + rewrite send_trial_callback_exhausted by exact H. reflexivity.
  - left. reflexivity.
  - destruct (_running_models w !! i) as [model|] eqn:E.
    + right. exists (trial_end i b), model. split; [exact E|].
      change (_trial_end_callback env i b) with (on_trial_event env (trial_end i b)).
      rewrite (on_trial_event_exec (trial_end i b) model w E). reflexivity.
    + left. unfold exec. rewrite (trial_end_callback_unknown env i b w E). reflexivity.
  - destruct (_running_models w !! i) as [model|] eqn:E.
    + right. exists (intermediate_metric i x), model. split; [exact E|].
      change (_intermediate_metric_callback env i x)
        with (on_trial_event env (intermediate_metric i x)).
      rewrite (on_trial_event_exec (intermediate_metric i x) model w E). reflexivity.
    + left. unfold exec.
      rewrite (intermediate_metric_callback_unknown env i x w E). reflexivity.
  - destruct (_running_models w !! i) as [model|] eqn:E.
    + right. exists (final_metric i x), model. split; [exact E|].
      change (_final_metric_callback env i x) with (on_trial_event env (final_metric i x)).
      rewrite (on_trial_event_exec (final_metric i x) model w E). reflexivity.
    + left. unfold exec. rewrite (final_metric_callback_unknown env i x w E). reflexivity.
  - left. reflexivity.
Qed.

(** The fields a call other than [submit_models] may change are the
    counter, the listener list, the models, and the two traces. *)
Lemma run_call_resources (c : Call) (w : World) :
  resources (exec (run_call env c) w) = resources w + ledger_change_of c.
Proof.
  destruct c as [models|l|p|n|i b|i x|i x|]; cbn [run_call ledger_change_of];
    rewrite ?Z.add_0_r.
  - apply submit_models_frame.
  - reflexivity.
  - rewrite (proj2 (send_trial_callback_resources p w)). lia.
  - reflexivity.
  - destruct (_running_models w !! i) as [model|] eqn:E.
    + rewrite (trial_end_callback_exec env _ _ _ _ E). reflexivity.
    + unfold exec. rewrite (trial_end_callback_unknown env i b w E). reflexivity.
  - destruct (_running_models w !! i) as [model|] eqn:E.
    + rewrite (intermediate_metric_callback_exec env _ _ _ _ E). reflexivity.
    + unfold exec. rewrite (intermediate_metric_callback_unknown env i x w E). reflexivity.
  - destruct (_running_models w !! i) as [model|] eqn:E.
    + rewrite (final_metric_callback_exec env _ _ _ _ E). reflexivity.
    + unfold exec. rewrite (final_metric_callback_unknown env i x w E). reflexivity.
  - reflexivity.
Qed.

Lemma run_call_listeners (c : Call) (w : World) :
  _listeners (exec (run_call env c) w) = _listeners w ++ registered_by [c].
Proof.
  destruct c as [models|l|p|n|i b|i x|i x|]; cbn [run_call registered_by flat_map];
    rewrite ?app_nil_r.
  - apply submit_models_frame.
  - reflexivity.
  - unfold exec. destruct (Z_lt_le_dec 0 (resources w)) as [H|H].
    + rewrite send_trial_callback_positive by exact H. reflexivity.
    + rewrite send_trial_callback_exhausted by exact H. reflexivity.
  - reflexivity.
  - destruct (_running_models w !! i) as [model|] eqn:E.
    + rewrite (trial_end_callback_exec env _ _ _ _ E). reflexivity.
    + unfold exec. rewrite (trial_end_callback_unknown env i b w E). reflexivity.
  - destruct (_running_models w !! i) as [model|] eqn:E.
    + rewrite (intermediate_metric_callback_exec env _ _ _ _ E). reflexivity.
    + unfold exec. rewrite (intermediate_metric_callback_unknown env i x w E). reflexivity.
  - destruct (_running_models w !! i) as [model|] eqn:E.
    + rewrite (final_metric_callback_exec env _ _ _ _ E). reflexivity.
    + unfold exec. rewrite (final_metric_callback_unknown env i x w E). reflexivity.
  - reflexivity.
Qed.

End Frames.

(** ** Invariants of the engine *)

Section Invariants.

Variable env : Environment.

Lemma after_calls_cons (c : Call) (cs : list Call) (w : World) :
  after_calls env (c :: cs) w = after_calls env cs (exec (run_call env c) w).
Proof. reflexivity. Qed.

(** X4: whatever calls are made on the engine, in whatever order, and
    whether or not some of them raise, the resource counter ends at its
    initial value plus the amounts granted minus one per consume event: no
    other method touches it. *)
Theorem ledger_after_calls (cs : list Call) (w : World) :
  resources (after_calls env cs w) = resources w + ledger_change cs
  /\ query_available_resource (after_calls env cs w)
     = (Ok (resources w + ledger_change cs), after_calls env cs w).
Proof.
  assert (H : forall cs w, resources (after_calls env cs w) = resources w + ledger_change cs).
  { clear cs w. induction cs as [|c cs IH]; intros w.
    - cbn. lia.
    - rewrite after_calls_cons, IH, run_call_resources.
      cbn [ledger_change foldr]. fold (ledger_change cs). lia. }
  split; [apply H|].
  unfold query_available_resource, gets. rewrite H. reflexivity.
Qed.

(** X5: the listener list only grows, and only by [register_graph_listener]:
    after any calls it is the list there was, followed by the listeners
    registered since, in the order of their registration, repeats kept. *)
Theorem listeners_after_calls (cs : list Call) (w : World) :
  _listeners (after_calls env cs w) = _listeners w ++ registered_by cs.
Proof.
  revert w. induction cs as [|c cs IH]; intros w.
  - cbn. rewrite app_nil_r. reflexivity.
  - rewrite after_calls_cons, IH, run_call_listeners.
    rewrite <- app_assoc. cbn [registered_by flat_map]. rewrite app_nil_r.
    reflexivity.
Qed.

Lemma run_call_keys (c : Call) (w : World) (k : Z) :
  is_Some (_running_models w !! k) ->
  is_Some (_running_models (exec (run_call env c) w) !! k).
Proof.
  intros H.
  destruct (match c with call_submit_models _ => true | _ => false end) eqn:E.
  - destruct c as [models| | | | | | |]; try discriminate E. cbn [run_call].
    apply submit_models_frame. exact H.
  - destruct (run_call_frame env c w) as [-> _]; [|exact H].
    intros models ->. discriminate E.
Qed.

Lemma run_call_entry (c : Call) (w : World) (k : Z) (model : ModelRef) :
  distinct_identifiers env -> registry_issued env w ->
  _running_models w !! k = Some model ->
  _running_models (exec (run_call env c) w) !! k = Some model.
Proof.
  intros Hinj Hiss H.
  destruct (match c with call_submit_models _ => true | _ => false end) eqn:E.
  - destruct c as [models| | | | | | |]; try discriminate E. cbn [run_call].
    destruct (submit_models_submitted env models w Hinj Hiss) as [_ Hsub].
    rewrite (submitted_old _ _ _ _ Hsub); [exact H|].
    intros i _ ->. rewrite (fresh_identifier env w Hinj Hiss i) in H. discriminate.
  - destruct (run_call_frame env c w) as [-> _]; [|exact H].
    intros models ->. discriminate E.
Qed.

(** X6: the registry never loses a key: an identifier that is registered is
    still registered after any further calls.  When the advisor assigns a
    different identifier to each submission, the entry also keeps its
    model. *)
Theorem registry_entries_kept (cs : list Call) (w : World) (k : Z) (model : ModelRef) :
  _running_models w !! k = Some model ->
  is_Some (_running_models (after_calls env cs w) !! k)
  /\ (distinct_identifiers env -> reachable env w ->
      _running_models (after_calls env cs w) !! k = Some model).
Proof.
  intros H. split.
  - assert (Hk : is_Some (_running_models w !! k)) by (rewrite H; eauto).
    clear H. revert w Hk. induction cs as [|c cs IH]; intros w Hk; [exact Hk|].
    rewrite after_calls_cons. apply IH. apply run_call_keys. exact Hk.
  - intros Hinj Hreach.
    pose proof (reachable_registry_issued env w Hinj Hreach) as Hiss. clear Hreach.
    revert w H Hiss. induction cs as [|c cs IH]; intros w H Hiss; [exact H|].
    rewrite after_calls_cons. apply IH.
    + apply run_call_entry; assumption.
    + apply run_call_issued; assumption.
Qed.

Lemma run_call_advisor (c : Call) (w : World) :
  (advisor_wired (advisor w) -> advisor_wired (advisor (exec (run_call env c) w)))
  /\ length (sent (advisor (exec (run_call env c) w)))
     = (length (sent (advisor w)) + length (submitted_by [c]))%nat.
Proof.
  destruct (match c with call_submit_models _ => true | _ => false end) eqn:E.
  - destruct c as [models| | | | | | |]; try discriminate E.
    cbn [run_call submitted_by flat_map]. rewrite app_nil_r.
    pose proof (submit_models_frame env models w) as F. cbn zeta in F.
    destruct F as (_ & _ & _ & _ & _ & _ & Hw & Hs & _).
    split; [exact Hw|]. rewrite Hs, length_app, length_map. reflexivity.
  - destruct (run_call_frame env c w) as [_ ->].
    { intros models ->. discriminate E. }
    split; [tauto|].
    destruct c; try discriminate E; cbn; lia.
Qed.

Lemma submitted_by_cons_length (c : Call) (cs : list Call) :
  length (submitted_by (c :: cs))
  = (length (submitted_by [c]) + length (submitted_by cs))%nat.
Proof.
  unfold submitted_by. cbn [flat_map]. rewrite app_nil_r, length_app. reflexivity.
Qed.

(** X7: once an engine is constructed, the advisor's five callback slots
    hold the engine's five callbacks and no later call changes that; the
    advisor has been handed one payload more for each model submitted
    since, and for nothing else. *)
Theorem advisor_after_calls (cs : list Call) (w0 : World) :
  let w := after_calls env cs (exec __init__ w0) in
  advisor_wired (advisor w)
  /\ length (sent (advisor w))
     = (length (sent (advisor w0)) + length (submitted_by cs))%nat.
Proof.
  cbn zeta.
  assert (H : forall cs w, advisor_wired (advisor w) ->
            advisor_wired (advisor (after_calls env cs w))
            /\ length (sent (advisor (after_calls env cs w)))
               = (length (sent (advisor w)) + length (submitted_by cs))%nat).
  { clear cs. induction cs as [|c cs IH]; intros w Hw.
    - split; [exact Hw | cbn; lia].
    - rewrite after_calls_cons.
      destruct (run_call_advisor c w) as [Hw1 Hs1].
      destruct (IH _ (Hw1 Hw)) as [Hw2 Hs2].
      split; [exact Hw2|]. rewrite Hs2, Hs1, (submitted_by_cons_length c cs). lia. }
  apply (H cs (exec __init__ w0)). repeat split.
Qed.

(** *** The models *)

Lemma update_of_moved (ev : TrialEvent) (m : Model) :
  training_config (update_of ev m) = training_config m
  /\ moved_status m (update_of ev m)
  /\ moved_metrics m (update_of ev m).
Proof.
  destruct ev as [i b|i x|i x]; cbn; unfold moved_status, moved_metrics; cbn.
  - split; [reflexivity|]. split; [destruct b; auto|].
    split; [exists []; rewrite app_nil_r; reflexivity | auto].
  - split; [reflexivity|]. split; [auto|]. split; [exists [x]; reflexivity | auto].
  - split; [reflexivity|]. split; [auto|].
    split; [exists []; rewrite app_nil_r; reflexivity | eauto].
Qed.

Lemma run_call_moved (c : Call) (w : World) (m : ModelRef) :
  training_config (objects (exec (run_call env c) w) m) = training_config (objects w m)
  /\ moved_status (objects w m) (objects (exec (run_call env c) w) m)
  /\ moved_metrics (objects w m) (objects (exec (run_call env c) w) m).
Proof.
  destruct (run_call_objects env c w) as [->|(ev & model & _ & ->)].
  - unfold moved_status, moved_metrics. split; [reflexivity|]. split; [auto|].
    split; [exists []; rewrite app_nil_r; reflexivity | auto].
  - destruct (decide (model = m)) as [->|Hne].
    + rewrite fn_lookup_alter. apply update_of_moved.
    + rewrite fn_lookup_alter_ne by exact Hne.
      unfold moved_status, moved_metrics. split; [reflexivity|]. split; [auto|].
      split; [exists []; rewrite app_nil_r; reflexivity | auto].
Qed.

Lemma after_calls_moved (cs : list Call) (w : World) (m : ModelRef) :
  training_config (objects (after_calls env cs w) m) = training_config (objects w m)
  /\ moved_status (objects w m) (objects (after_calls env cs w) m)
  /\ moved_metrics (objects w m) (objects (after_calls env cs w) m).
Proof.
  revert w. induction cs as [|c cs IH]; intros w.
  - unfold moved_status, moved_metrics. split; [reflexivity|]. split; [auto|].
    split; [exists []; rewrite app_nil_r; reflexivity | auto].
  - rewrite after_calls_cons.
    destruct (run_call_moved c w m) as (Ht1 & Hs1 & (more1 & Hm1) & Hf1).
    destruct (IH (exec (run_call env c) w)) as (Ht2 & Hs2 & (more2 & Hm2) & Hf2).
    split; [congruence|]. split; [|split].
    + unfold moved_status in *. rewrite <- Ht2 in *.
      destruct Hs2 as [->|[->| ->]]; auto.
    + exists (more1 ++ more2). rewrite Hm2, Hm1, <- app_assoc. reflexivity.
    + auto.
Qed.

(** X8: the engine moves a model's status to [Trained] or [Failed] and
    nowhere else: after any calls the status is the one the model had, or
    one of these two; it is never set to [Waiting] or [Running].  The
    model's training configuration is never changed. *)
Theorem status_after_calls (cs : list Call) (w : World) (m : ModelRef) :
  let m0 := objects w m in
  let m1 := objects (after_calls env cs w) m in
  (status m1 = status m0 \/ status m1 = Trained \/ status m1 = Failed)
  /\ training_config m1 = training_config m0.
Proof.
  cbn zeta. destruct (after_calls_moved cs w m) as (Ht & Hs & _).
  split; [exact Hs | exact Ht].
Qed.


End Invariants.

(** ** Trial events *)

Section TrialEvents.

Variable env : Environment.

Lemma fan_out_raises (n : Notification) (pre : list Listener) (l : Listener)
    (post : list Listener) (w : World) :
  (forall l', In l' pre -> listener_raises env l' n = false) ->
  listener_raises env l n = true ->
  outcome (for_each (call_listener env n) (pre ++ l :: post)) w = Raise (ListenerRaised l n)
  /\ reached env n (pre ++ l :: post) = pre ++ [l].
Proof.
  intros Hpre Hl. revert w. induction pre as [|p pre IH]; intros w.
  - unfold outcome. cbn [app]. rewrite for_each_cons, call_listener_eq.
    cbn [reached]. rewrite Hl. split; reflexivity.
  - unfold outcome in *. cbn [app]. rewrite for_each_cons, call_listener_eq.
    cbn [reached]. rewrite (Hpre p) by (left; reflexivity).
    destruct (IH (fun l' H => Hpre l' (or_intror H))
                (with_notified (notified w ++ [(p, n)]) w)) as [Ho Hr].
    split; [exact Ho | rewrite Hr; reflexivity].
Qed.

(** X10: a listener that raises ends the fan-out of a trial event.  The
    model has been updated, the listeners registered before it have been
    called, it has been called, those registered after it are not, and
    its exception leaves the handler; nothing else has changed. *)
Theorem trial_event_listener_raises
    (ev : TrialEvent) (model : ModelRef) (pre : list Listener) (l : Listener)
    (post : list Listener) (w : World) :
  _running_models w !! trial_of ev = Some model ->
  _listeners w = pre ++ l :: post ->
  (forall l', In l' pre -> listener_raises env l' (notification_of ev model) = false) ->
  listener_raises env l (notification_of ev model) = true ->
  on_trial_event env ev w
  = (Raise (ListenerRaised l (notification_of ev model)),
     with_notified (notified w ++ calls (notification_of ev model) (pre ++ [l]))
       (with_objects (alter (update_of ev) model (objects w)) w)).
Proof.
  intros Hreg Hls Hpre Hl.
  destruct (fan_out_raises (notification_of ev model) pre l post w Hpre Hl) as [Ho Hr].
  pose proof (on_trial_event_outcome env ev model w Hreg) as Hout.
  pose proof (on_trial_event_exec env ev model w Hreg) as Hexec.
  rewrite Hls in Hout, Hexec. rewrite Ho in Hout. rewrite Hr in Hexec.
  unfold outcome in Hout. unfold exec in Hexec.
  destruct (on_trial_event env ev w) as [r w']. cbn in Hout, Hexec.
  rewrite Hout, Hexec. reflexivity.
Qed.

(** X11: when no registered listener raises, the handler of a trial event
    on a registered identifier returns, and the state it leaves is the one
    it found with the model updated and one call on each entry of the
    listener list, in registration order, appended to the calls made: the
    counter, the registry, the listener list, the advisor and the logger
    are as they were, and so is every other model. *)
Theorem trial_event_returns (ev : TrialEvent) (model : ModelRef) (w : World) :
  _running_models w !! trial_of ev = Some model ->
  (forall l, In l (_listeners w) -> listener_raises env l (notification_of ev model) = false) ->
  on_trial_event env ev w
  = (Ok tt,
     with_notified (notified w ++ calls (notification_of ev model) (_listeners w))
       (with_objects (alter (update_of ev) model (objects w)) w)).
Proof.
  intros Hreg Hall.
  destruct (fan_out_returns env (notification_of ev model) (_listeners w) w Hall) as [Ho Hr].
  pose proof (on_trial_event_outcome env ev model w Hreg) as Hout.
  pose proof (on_trial_event_exec env ev model w Hreg) as Hexec.
  rewrite Ho in Hout. rewrite Hr in Hexec.
  unfold outcome in Hout. unfold exec in Hexec.
  destruct (on_trial_event env ev w) as [r w']. cbn in Hout, Hexec.
  rewrite Hout, Hexec. reflexivity.
Qed.

(** X12: the identifiers [submit_models] obtains are the ones the handlers
    accept.  When the advisor assigns a different identifier to each
    submission, an event on the identifier assigned to the [i]-th model
    submitted does not raise [KeyError], and updates that model. *)
Theorem submitted_trial_event
    (models : list ModelRef) (i : nat) (model : ModelRef) (ev : TrialEvent) (w : World) :
  distinct_identifiers env ->
  reachable env w ->
  models !! i = Some model ->
  trial_of ev = send_trial_id env (length (sent (advisor w)) + i) ->
  let w1 := exec (submit_models env models) w in
  outcome (on_trial_event env ev) w1 <> Raise (KeyError_int (trial_of ev))
  /\ objects (exec (on_trial_event env ev) w1) = alter (update_of ev) model (objects w).
Proof.
  intros Hinj Hreach Hi Hid w1.
  pose proof (reachable_registry_issued env w Hinj Hreach) as Hiss.
  destruct (submit_models_submitted env models w Hinj Hiss) as [_ Hsub].
  fold w1 in Hsub.
  assert (Hreg : _running_models w1 !! trial_of ev = Some model).
  { rewrite Hid. apply (submitted_new _ _ _ _ Hsub). exact Hi. }
  split.
  - rewrite (on_trial_event_outcome env ev model w1 Hreg).
    generalize (_listeners w1) as ls. generalize w1 as w2.
    intros w2 ls. revert w2. induction ls as [|l ls IH]; intros w2.
    + discriminate.
    + unfold outcome in *. rewrite for_each_cons, call_listener_eq.
      destruct (listener_raises env l (notification_of ev model)); [discriminate|].
      apply IH.
  - rewrite (on_trial_event_exec env ev model w1 Hreg). cbn.
    rewrite (submitted_objects _ _ _ _ Hsub). reflexivity.
Qed.

(** X13: submitting a list of models in one call is submitting its parts in
    successive calls: [submit_models] of [a ++ b] does what [submit_models]
    of [a] followed by [submit_models] of [b] does, and [submit_models] of
    no model does nothing. *)
Theorem submit_models_app (a b : list ModelRef) (w : World) :
  submit_models env (a ++ b) w = submit_models env b (exec (submit_models env a) w)
  /\ submit_models env [] w = (Ok tt, w).
Proof.
  split; [|reflexivity].
  unfold submit_models, exec. revert w. induction a as [|model a IH]; intros w.
  - reflexivity.
  - cbn [app]. rewrite !for_each_cons, submit_model_eq. apply IH.
Qed.

(** X14: a trial-end event overwrites the status whatever it was, and two
    identifiers registered for one model object write the same status
    field: after a trial-end event on one and then a trial-end event on the
    other (or on the same one again), the model has the status of the second
    event. *)
Theorem trial_end_last_wins
    (i1 i2 : Z) (b1 b2 : bool) (model : ModelRef) (w : World) :
  _running_models w !! i1 = Some model ->
  _running_models w !! i2 = Some model ->
  let w' := after_calls env [call_trial_end_callback i1 b1; call_trial_end_callback i2 b2] w in
  status (objects w' model) = (if b2 then Trained else Failed)
  /\ _running_models w' = _running_models w.
Proof.
  intros H1 H2 w'. subst w'. cbn [after_calls fold_left run_call].
  rewrite (trial_end_callback_exec env i1 b1 model w H1).
  match goal with
  | |- context [exec _ ?w1] =>
      assert (H2' : _running_models w1 !! i2 = Some model) by exact H2;
      rewrite (trial_end_callback_exec env i2 b2 model w1 H2')
  end.
  cbn [objects with_notified with_objects _running_models].
  rewrite fn_lookup_alter. cbn. split; [destruct b2; reflexivity | reflexivity].
Qed.

(** X15: intermediate metrics accumulate in arrival order: after a run of
    intermediate-metric events on a registered identifier, the model's
    sequence is the one it had followed by the metrics of the events, in
    order, repeats kept, whether or not listeners raised on the way. *)
Theorem intermediate_metrics_accumulate
    (i : Z) (model : ModelRef) (xs : list MetricData) (w : World) :
  _running_models w !! i = Some model ->
  intermediate_metrics
    (objects (after_calls env (map (call_intermediate_metric_callback i) xs) w) model)
  = intermediate_metrics (objects w model) ++ xs.
Proof.
  revert w. induction xs as [|x xs IH]; intros w H.
  - cbn. rewrite app_nil_r. reflexivity.
  - cbn [map]. rewrite after_calls_cons. cbn [run_call].
    rewrite IH.
    + rewrite (intermediate_metric_callback_exec env i x model w H).
      cbn [objects with_notified with_objects]. rewrite fn_lookup_alter.
      cbn. rewrite <- app_assoc. reflexivity.
    + rewrite (intermediate_metric_callback_exec env i x model w H). exact H.
Qed.

End TrialEvents.

(** ** The trial process, case by case *)

Section TrialCases.

Variable tenv : TrialEnvironment.

Lemma trial_execute_graph_not_loaded (e : Exn) (fs : Files) :
  BaseGraphData.load (receive_trial_parameters tenv) = Raise e ->
  trial_execute_graph tenv fs = (Raise e, fs).
Proof.
  intros H. unfold trial_execute_graph, lift_result.
  unfold mbind at 1, Py_bind at 1. rewrite H. reflexivity.
Qed.

Lemma trial_execute_graph_not_str (graph_data : BaseGraphData.t) (fs : Files) :
  BaseGraphData.load (receive_trial_parameters tenv) = Ok graph_data ->
  (forall s, BaseGraphData.model_script graph_data <> VStr s) ->
  trial_execute_graph tenv fs
  = (Raise TypeError, <[file_name tenv := EmptyString]> fs).
Proof.
  intros H Hns. unfold trial_execute_graph, lift_result, open_w, write.
  unfold mbind at 1 2 3, Py_bind at 1 2 3, modify. rewrite H.
  destruct (BaseGraphData.model_script graph_data) as [| | |s| |]; try reflexivity.
  destruct (Hns s). reflexivity.
Qed.

Lemma trial_execute_graph_not_encoded
    (script : string) (training_module training_kwargs : PyVal) (fs : Files) :
  BaseGraphData.load (receive_trial_parameters tenv)
  = Ok (BaseGraphData.mk (VStr script) training_module training_kwargs) ->
  encodes tenv script = false ->
  trial_execute_graph tenv fs
  = (Raise UnicodeEncodeError, <[file_name tenv := EmptyString]> fs).
Proof.
  intros H Henc. unfold trial_execute_graph, lift_result, open_w, write.
  unfold mbind at 1 2 3, Py_bind at 1 2 3, modify. rewrite H.
  cbn [BaseGraphData.model_script]. rewrite Henc. reflexivity.
Qed.

(** X16: when the parameters received lack one of the three keys, the
    trial raises [KeyError] on a key that is missing, before it has written
    anything: the directory is as it was. *)
Theorem trial_execute_graph_missing_key (k : string) (fs : Files) :
  In k graph_data_keys ->
  receive_trial_parameters tenv !! k = None ->
  exists k',
    In k' graph_data_keys
    /\ receive_trial_parameters tenv !! k' = None
    /\ trial_execute_graph tenv fs = (Raise (KeyError_str k'), fs).
Proof.
  intros Hk Hnone. set (data := receive_trial_parameters tenv) in *.
  pose proof (load_eq data) as Hload.
  destruct (data !! "model_script") as [ms|] eqn:E1.
  - destruct (data !! "training_module") as [tm|] eqn:E2.
    + destruct (data !! "training_kwargs") as [kw|] eqn:E3.
      * cbn in Hk. destruct Hk as [<-|[<-|[<-|[]]]]; congruence.
      * exists "training_kwargs". split; [cbn; auto|]. split; [exact E3|].
        apply trial_execute_graph_not_loaded. exact Hload.
    + exists "training_module". split; [cbn; auto|]. split; [exact E2|].
      apply trial_execute_graph_not_loaded. exact Hload.
  - exists "model_script". split; [cbn; auto|]. split; [exact E1|].
    apply trial_execute_graph_not_loaded. exact Hload.
Qed.




(** X19: the statements of [trial_execute_graph] themselves write no file
    but the generated one: a file of another name that the imported code
    leaves alone is, after the trial, what it was before, however the trial
    ends. *)
Theorem trial_execute_graph_other_files (fs : Files) (name : string) :
  name <> file_name tenv ->
  (forall c, preserves name (imported tenv c)) ->
  exec (trial_execute_graph tenv) fs !! name = fs !! name.
Proof.
  intros Hne Hpres. unfold exec.
  destruct (BaseGraphData.load (receive_trial_parameters tenv)) as [gd|e] eqn:H.
  - destruct gd as [ms tm kw].
    destruct (match ms with VStr _ => true | _ => false end) eqn:Hs.
    + destruct ms as [| | |script| |]; try discriminate Hs.
      destruct (encodes tenv script) eqn:Henc.
      * rewrite (trial_execute_graph_written tenv script tm kw H Henc fs).
        assert (Hrest : preserves name
                  (train tenv (BaseGraphData.mk (VStr script) tm kw)
                   ;; os_remove (file_name tenv))).
        { apply preserves_seq.
          - apply train_preserves. exact Hpres.
          - intros fs'. unfold exec, os_remove.
            destruct (fs' !! file_name tenv); cbn [snd]; [|reflexivity].
            apply lookup_delete_ne. congruence. }
        unfold preserves, exec in Hrest. rewrite Hrest.
        apply lookup_insert_ne. congruence.
      * rewrite (trial_execute_graph_not_encoded script tm kw fs H Henc). cbn [snd].
        apply lookup_insert_ne. congruence.
    + rewrite (trial_execute_graph_not_str _ fs H).
      * cbn [snd]. apply lookup_insert_ne. congruence.
      * intros s. cbn. intros ->. discriminate Hs.
  - rewrite (trial_execute_graph_not_loaded e fs H). reflexivity.
Qed.

End TrialCases.

(** ** The name of the generated file *)

Lemma alphabet_length :
  length (list_ascii_of_string ascii_uppercase_digits) = 36%nat.
Proof. reflexivity. Qed.

Lemma alphabet_NoDup : List.NoDup (list_ascii_of_string ascii_uppercase_digits).
Proof.
  apply NoDup_ListNoDup.
  apply (bool_decide_unpack _). vm_compute. exact I.
Qed.

Lemma choice_in (tenv : TrialEnvironment) (k : nat) :
  In (choice tenv k) (list_ascii_of_string ascii_uppercase_digits).
Proof.
  unfold choice. apply nth_In. rewrite alphabet_length.
  apply Nat.mod_upper_bound. discriminate.
Qed.

Lemma choice_eq (t1 t2 : TrialEnvironment) (k : nat) :
  choice t1 k = choice t2 k
  <-> (random_choice t1 k mod 36 = random_choice t2 k mod 36)%nat.
Proof.
  unfold choice. rewrite alphabet_length. split.
  - intros H. revert H. apply (proj1 (NoDup_nth _ _) alphabet_NoDup);
      rewrite alphabet_length; apply Nat.mod_upper_bound; discriminate.
  - intros ->. reflexivity.
Qed.

Lemma random_str_chars (tenv : TrialEnvironment) :
  random_str tenv
  = String (choice tenv 0) (String (choice tenv 1) (String (choice tenv 2)
      (String (choice tenv 3) (String (choice tenv 4) (String (choice tenv 5)
         EmptyString))))).
Proof. reflexivity. Qed.

Lemma append_inj_l (p a b : string) :
  String.append p a = String.append p b -> a = b.
Proof.
  induction p as [|c p IH]; cbn [String.append]; intros H; [exact H|].
  injection H as H. apply IH. exact H.
Qed.

(** X20: the name of the generated file is [_generated_model_], six
    characters, [.py]; each of the six characters is an upper-case letter
    or a digit, whatever [random.choice] draws. *)
Theorem file_name_shape (tenv : TrialEnvironment) :
  file_name tenv
  = String.append "_generated_model_" (String.append (random_str tenv) ".py")
  /\ String.length (random_str tenv) = 6%nat
  /\ String.length (file_name tenv) = 26%nat
  /\ Forall (fun c => In c (list_ascii_of_string ascii_uppercase_digits))
       (list_ascii_of_string (random_str tenv)).
Proof.
  split; [reflexivity|]. split; [reflexivity|]. split; [reflexivity|].
  rewrite random_str_chars. cbn [list_ascii_of_string].
  repeat (apply Forall_cons; [apply choice_in|]). apply Forall_nil.
Qed.

(** X21: two trials write to the same file exactly when their six draws
    pick the same six characters, that is, agree modulo 36 one by one: a
    difference in any one draw separates the two files. *)
Theorem file_name_collision (t1 t2 : TrialEnvironment) :
  file_name t1 = file_name t2
  <-> forall k, (k < 6)%nat ->
        (random_choice t1 k mod 36 = random_choice t2 k mod 36)%nat.
Proof.
  split.
  - intros H. unfold file_name in H. apply append_inj_l in H.
    rewrite !random_str_chars in H. cbn [String.append] in H.
    injection H as H0 H1 H2 H3 H4 H5.
    intros k Hk.
    do 6 (destruct k as [|k]; [apply choice_eq; assumption|]). lia.
  - intros H. unfold file_name. rewrite !random_str_chars.
    rewrite (proj2 (choice_eq t1 t2 0) (H 0%nat ltac:(lia))).
    rewrite (proj2 (choice_eq t1 t2 1) (H 1%nat ltac:(lia))).
    rewrite (proj2 (choice_eq t1 t2 2) (H 2%nat ltac:(lia))).
    rewrite (proj2 (choice_eq t1 t2 3) (H 3%nat ltac:(lia))).
    rewrite (proj2 (choice_eq t1 t2 4) (H 4%nat ltac:(lia))).
    rewrite (proj2 (choice_eq t1 t2 5) (H 5%nat ltac:(lia))).
    reflexivity.
Qed.

(** ** From the engine to the trial *)


(** ** Instances of the further properties *)

Lemma registry_entries_kept_witness :
  _running_models engine_with_trial !! 0 = Some 7%nat
  /\ _running_models
       (after_calls quiet [call_submit_models [8%nat]; call_trial_end_callback 0 true]
          engine_with_trial) !! 0
     = Some 7%nat.
Proof.
  assert (H : _running_models engine_with_trial !! 0 = Some 7%nat) by reflexivity.
  split; [exact H|].
  exact (proj2 (registry_entries_kept quiet
                  [call_submit_models [8%nat]; call_trial_end_callback 0 true]
                  engine_with_trial 0 7%nat H)
           quiet_distinct_identifiers engine_with_trial_reachable).
Defined.

Lemma trial_event_listener_raises_witness :
  outcome (on_trial_event noisy (trial_end 0 false)) engine_with_trial
  = Raise (ListenerRaised 1%nat (on_training_end 7%nat false)).
Proof.
  unfold outcome.
  rewrite (trial_event_listener_raises noisy (trial_end 0 false) 7%nat [] 1%nat [2%nat]
             engine_with_trial eq_refl eq_refl (fun l' (H : In l' []) => match H with end)
             eq_refl).
  reflexivity.
Defined.

Lemma trial_event_returns_witness :
  notified (exec (on_trial_event quiet (intermediate_metric 0 (VInt 3))) engine_with_trial)
  = [(1%nat, on_intermediate_metric 7%nat (VInt 3));
     (2%nat, on_intermediate_metric 7%nat (VInt 3))].
Proof.
  unfold exec.
  rewrite (trial_event_returns quiet (intermediate_metric 0 (VInt 3)) 7%nat
             engine_with_trial eq_refl (fun l _ => eq_refl)).
  reflexivity.
Defined.

Lemma submitted_trial_event_witness :
  let w1 := exec (submit_models quiet [8%nat; 9%nat]) engine_with_trial in
  metric (objects (exec (on_trial_event quiet (final_metric 2 (VInt 5))) w1) 9%nat)
  = Some (VInt 5).
Proof.
  intros w1.
  destruct (submitted_trial_event quiet [8%nat; 9%nat] 1 9%nat (final_metric 2 (VInt 5))
              engine_with_trial quiet_distinct_identifiers engine_with_trial_reachable
              eq_refl eq_refl) as [_ H].
  fold w1 in H. rewrite H. reflexivity.
Defined.

Lemma trial_end_last_wins_witness :
  _running_models engine_with_duplicate !! 1 = Some 8%nat
  /\ _running_models engine_with_duplicate !! 2 = Some 8%nat
  /\ status (objects
               (after_calls quiet
                  [call_trial_end_callback 1 true; call_trial_end_callback 2 false]
                  engine_with_duplicate) 8%nat)
     = Failed.
Proof.
  assert (H1 : _running_models engine_with_duplicate !! 1 = Some 8%nat) by reflexivity.
  assert (H2 : _running_models engine_with_duplicate !! 2 = Some 8%nat) by reflexivity.
  split; [exact H1|]. split; [exact H2|].
  exact (proj1 (trial_end_last_wins quiet 1 2 true false 8%nat engine_with_duplicate H1 H2)).
Defined.

Lemma intermediate_metrics_accumulate_witness :
  intermediate_metrics
    (objects
       (after_calls quiet (map (call_intermediate_metric_callback 0) [VInt 1; VInt 2])
          engine_with_trial) 7%nat)
  = [VInt 1; VInt 2].
Proof.
  exact (intermediate_metrics_accumulate quiet 0 7%nat [VInt 1; VInt 2]
           engine_with_trial eq_refl).
Defined.

Lemma trial_execute_graph_missing_key_witness :
  exists k', trial_execute_graph trial_missing_kwargs ∅ = (Raise (KeyError_str k'), ∅).
Proof.
  destruct (trial_execute_graph_missing_key trial_missing_kwargs "training_kwargs" ∅)
    as (k' & _ & _ & H).
  - cbn. auto.
  - reflexivity.
  - exists k'. exact H.
Defined.



Lemma trial_execute_graph_other_files_witness :
  exec (trial_execute_graph failing_trial) {["notes.txt" := "kept"]} !! "notes.txt"
  = Some "kept".
Proof.
  rewrite (trial_execute_graph_other_files failing_trial {["notes.txt" := "kept"]} "notes.txt").
  - reflexivity.
  - discriminate.
  - intros c fs. destruct c; try reflexivity.
    unfold exec. cbn [imported failing_trial imported_code snd modify].
    apply lookup_insert_ne. discriminate.
Defined.


(** ** The size of the registry *)

Section RegistrySize.

Variable env : Environment.

Lemma submit_models_size (models : list ModelRef) (w : World) :
  (size (_running_models (exec (submit_models env models) w))
   <= size (_running_models w) + length models)%nat.
Proof.
  unfold submit_models, exec. revert w.
  induction models as [|model models IH]; intros w.
  - cbn. lia.
  - rewrite for_each_cons, submit_model_eq.
    etransitivity; [apply IH|]. cbn [_running_models with_running_models length].
    rewrite map_size_insert. destruct (_ !! _); unfold id; lia.
Qed.

Lemma run_call_size (c : Call) (w : World) :
  (size (_running_models (exec (run_call env c) w))
   <= size (_running_models w) + length (submitted_by [c]))%nat
  /\ (distinct_identifiers env -> registry_issued env w ->
      size (_running_models (exec (run_call env c) w))
      = (size (_running_models w) + length (submitted_by [c]))%nat).
Proof.
  destruct (match c with call_submit_models _ => true | _ => false end) eqn:E.
  - destruct c as [models| | | | | | |]; try discriminate E.
    cbn [run_call submitted_by flat_map]. rewrite app_nil_r. split.
    + apply submit_models_size.
    + intros Hinj Hiss.
      apply (submitted_size _ _ _ _ (proj2 (submit_models_submitted env models w Hinj Hiss))).
  - destruct (run_call_frame env c w) as [-> _].
    { intros models ->. discriminate E. }
    assert (Hn : length (submitted_by [c]) = 0%nat)
      by (destruct c; try discriminate E; reflexivity).
    rewrite Hn. split; [lia | intros _ _; lia].
Qed.

(** X23: the registry of an engine holds at most one entry for each model
    submitted since its construction, and nothing enters it otherwise; when
    the advisor assigns a different identifier to each submission it holds
    exactly one entry for each (a model submitted twice counts twice). *)
Theorem registry_size_after_calls (cs : list Call) (w0 : World) :
  let w := after_calls env cs (exec __init__ w0) in
  (size (_running_models w) <= length (submitted_by cs))%nat
  /\ (distinct_identifiers env ->
      size (_running_models w) = length (submitted_by cs)).
Proof.
  cbn zeta.
  assert (H : forall cs w,
            (size (_running_models (after_calls env cs w))
             <= size (_running_models w) + length (submitted_by cs))%nat
            /\ (distinct_identifiers env -> registry_issued env w ->
                size (_running_models (after_calls env cs w))
                = (size (_running_models w) + length (submitted_by cs))%nat)).
  { clear cs. induction cs as [|c cs IH]; intros w.
    - cbn. split; [lia | intros _ _; lia].
    - rewrite after_calls_cons, (submitted_by_cons_length c cs).
      destruct (run_call_size c w) as [Hle Heq].
      destruct (IH (exec (run_call env c) w)) as [IHle IHeq].
      split; [lia|]. intros Hinj Hiss.
      rewrite IHeq; [rewrite Heq by assumption; lia | exact Hinj |].
      apply run_call_issued; assumption. }
  destruct (H cs (exec __init__ w0)) as [Hle Heq].
  assert (H0 : size (_running_models (exec __init__ w0)) = 0%nat) by reflexivity.
  split; [lia|]. intros Hinj. rewrite Heq; [lia | exact Hinj |].
  intros k model Hk.
  change (_running_models (exec __init__ w0)) with (∅ : gmap Z ModelRef) in Hk.
  rewrite lookup_empty in Hk. discriminate.
Qed.

End RegistrySize.

(** ** Scenarios of the trial process *)

(** A trial that returns leaves the directory with the bytecode cache the
    import of the generated module wrote, and without the generated file. *)
Example passing_trial_scenario :
  outcome (trial_execute_graph passing_trial) ∅ = Ok tt
  /\ exec (trial_execute_graph passing_trial) ∅ !! "_generated_model_AAAAAA.py" = None
  /\ exec (trial_execute_graph passing_trial) ∅ !! bytecode_cache = Some "(bytecode)".
Proof. repeat split. Qed.

(** A keyword [model] in the training configuration: the model is
    constructed, the call of the trainer class raises [TypeError], and the
    generated file stays. *)
Example keyword_model_scenario :
  let tenv := trial_for generating model_with_model_keyword (fun _ => 0%nat)
                (fun _ => true) (imported_code false) in
  outcome (trial_execute_graph tenv) ∅ = Raise TypeError
  /\ exec (trial_execute_graph tenv) ∅ !! "_generated_model_AAAAAA.py"
     = Some "class _model: pass".
Proof. repeat split. Qed.

(** A script the encoding lacks: [f.write] raises, and the file [open]
    created stays, empty. *)
Example not_encoded_scenario :
  let tenv := trial_for generating sample_model (fun _ => 0%nat)
                (fun _ => false) (imported_code false) in
  outcome (trial_execute_graph tenv) ∅ = Raise UnicodeEncodeError
  /\ exec (trial_execute_graph tenv) ∅ !! "_generated_model_AAAAAA.py" = Some EmptyString.
Proof. repeat split. Qed.
